(** * RedditAutoCrosspostBot: the staged duplicate-detection pipeline

    A shallow embedding of [phase1_handler.py], [phase2_handler.py] and
    [RedditAutoCrosspostBot.py], and the properties of the pipeline
    established on it.

    Conventions.
    - A Python [str] is a [string]; the characters the code inspects
      (the regular expressions, [lower()]) are ASCII ones, every other
      character is outside each character class.
    - Calls that leave the process (the search endpoint, the repost
      detector, the reply sink, the staging store, the comment stream)
      are recorded in a trace; what they answer is given by an
      environment.
    - A Python exception is a value of [exn]; code that may raise lives
      in the monad [M], which carries the trace of calls made so far.
    - The reply sink and the staging store accept every call: what a
      reply or an insert may itself raise is not part of the model,
      which is about the calls that are made.
    - Logging is left out of the two phase handlers; the main loop
      keeps it, next to its sleeps and the streams it opens.
    - The main loop runs against a finite script of what the stream and
      the event handlers do next; a loop that has used the script up is
      [Waiting] on the stream. *)

From Stdlib Require Import String Ascii List ZArith Lia Bool Arith.
From stdpp Require Import base gmap strings.
Import ListNotations.
Local Open Scope string_scope.
Local Open Scope list_scope.
Set Warnings "-register-all".

(** ** Regular expressions: the fragment of Python's [re] the code uses *)

Module Re.

(** Pattern syntax. [Class] is a bracket expression given as inclusive
    ranges; [Group n] is the n-th capturing group. *)
Inductive regex : Type :=
| Eps
| Lit (c : ascii)
| Class (ranges : list (ascii * ascii))
| Bol
| Eol
| WordB
| Cat (r1 r2 : regex)
| Alt (r1 r2 : regex)
| Opt (r : regex)
| Plus (r : regex)
| Group (n : nat) (r : regex).

(** The subject at a position: the characters already passed (nearest
    first) and the characters still ahead. *)
Record cursor : Type := Cursor { before : list ascii; ahead : list ascii }.

Definition captures : Type := list (nat * list ascii).

Definition newline : ascii := "010"%char.

Definition code (c : ascii) : nat := nat_of_ascii c.

Definition in_range (c : ascii) (r : ascii * ascii) : bool :=
  (code (fst r) <=? code c)%nat && (code c <=? code (snd r))%nat.

Definition in_class (ranges : list (ascii * ascii)) (c : ascii) : bool :=
  existsb (in_range c) ranges.

(** [str.lower()] on one ASCII character. *)
Definition lower_ascii (c : ascii) : ascii :=
  if in_range c ("A"%char, "Z"%char) then ascii_of_nat (code c + 32) else c.

(** [\w] on ASCII. *)
Definition is_word (c : ascii) : bool :=
  in_class [("a", "z"); ("A", "Z"); ("0", "9"); ("_", "_")]%char c.

Definition lit_eq (ignorecase : bool) (x c : ascii) : bool :=
  if ignorecase
  then Ascii.eqb (lower_ascii x) (lower_ascii c)
  else Ascii.eqb x c.

Definition word_at (l : list ascii) : bool :=
  match l with
  | x :: _ => is_word x
  | [] => false
  end.

(** [$] without MULTILINE: at the end of the subject, or just before a
    line feed that ends it. *)
Definition at_eol (l : list ascii) : bool :=
  match l with
  | [] => true
  | [x] => Ascii.eqb x newline
  | _ => false
  end.

(** The text a group spanned, between two cursors of one subject. *)
Definition between (c1 c2 : cursor) : list ascii :=
  firstn (length (ahead c1) - length (ahead c2)) (ahead c1).

Section Matcher.
Variable ignorecase : bool.

(** One or more rounds of [step], as many as possible first.  A round
    that consumes nothing ends the repetition; [fuel] bounds the
    rounds by the characters ahead. *)
Fixpoint plus_loop
         (step : cursor -> captures ->
                 (cursor -> captures -> option captures) -> option captures)
         (k : cursor -> captures -> option captures)
         (fuel : nat) (cur0 : cursor) (caps0 : captures)
  : option captures :=
  match fuel with
  | O => None
  | S fuel' =>
      step cur0 caps0 (fun cur' caps' =>
        if (length (ahead cur') <? length (ahead cur0))%nat
        then match plus_loop step k fuel' cur' caps' with
             | Some m => Some m
             | None => k cur' caps'
             end
        else k cur' caps')
  end.

(** Backtracking matcher in continuation style: [k] is what remains
    of the pattern.  Alternatives are tried left to right and
    quantifiers are greedy, as in [re]. *)
Fixpoint matches (r : regex) (cur : cursor) (caps : captures)
         (k : cursor -> captures -> option captures) {struct r}
  : option captures :=
  match r with
  | Eps => k cur caps
  | Lit c =>
      match ahead cur with
      | x :: rest =>
          if lit_eq ignorecase x c
          then k (Cursor (x :: before cur) rest) caps
          else None
      | [] => None
      end
  | Class ranges =>
      match ahead cur with
      | x :: rest =>
          if in_class ranges x
          then k (Cursor (x :: before cur) rest) caps
          else None
      | [] => None
      end
  | Bol =>
      match before cur with
      | [] => k cur caps
      | _ :: _ => None
      end
  | Eol => if at_eol (ahead cur) then k cur caps else None
  | WordB =>
      if xorb (word_at (before cur)) (word_at (ahead cur))
      then k cur caps
      else None
  | Cat r1 r2 =>
      matches r1 cur caps (fun cur' caps' => matches r2 cur' caps' k)
  | Alt r1 r2 =>
      match matches r1 cur caps k with
      | Some m => Some m
      | None => matches r2 cur caps k
      end
  | Opt r1 =>
      match matches r1 cur caps k with
      | Some m => Some m
      | None => k cur caps
      end
  | Plus r1 => plus_loop (matches r1) k (S (length (ahead cur))) cur caps
  | Group n r1 =>
      matches r1 cur caps (fun cur' caps' =>
        k cur' ((n, between cur cur') :: caps'))
  end.

(** [pattern.search]: the first position, from the left, at which the
    pattern matches. *)
Fixpoint search_from (r : regex) (bef ahd : list ascii)
  : option captures :=
  match matches r (Cursor bef ahd) [] (fun _ caps => Some caps) with
  | Some m => Some m
  | None =>
      match ahd with
      | [] => None
      | x :: ahd' => search_from r (x :: bef) ahd'
      end
  end.

Definition search (r : regex) (s : string) : option captures :=
  search_from r [] (list_ascii_of_string s).
End Matcher.

(** A literal word, and [p1|p2|...]. *)
Fixpoint word (s : string) : regex :=
  match s with
  | EmptyString => Eps
  | String c s' => Cat (Lit c) (word s')
  end.

Fixpoint alternatives (rs : list regex) : regex :=
  match rs with
  | [] => Eps
  | [r] => r
  | r :: rs' => Alt r (alternatives rs')
  end.

(** The number of capturing groups of a pattern. *)
Fixpoint ngroups (r : regex) : nat :=
  match r with
  | Cat r1 r2 | Alt r1 r2 => ngroups r1 + ngroups r2
  | Opt r1 | Plus r1 => ngroups r1
  | Group _ r1 => S (ngroups r1)
  | _ => 0
  end.

Fixpoint lookup_group (n : nat) (caps : captures) : option (list ascii) :=
  match caps with
  | [] => None
  | (i, s) :: caps' => if (i =? n)%nat then Some s else lookup_group n caps'
  end.

(** [match.groups()]: groups 1..n, [None] for a group that took no part. *)
Definition groups (r : regex) (caps : captures) : list (option string) :=
  map (fun n => option_map string_of_list_ascii (lookup_group n caps))
      (seq 1 (ngroups r)).

End Re.

(** ** Python values, exceptions and the monad of calls *)

Module Py.

(** The exception classes the three modules raise, catch or test for. *)
Inductive exc_class : Type :=
| ServerError | Forbidden | ConnectTimeout | RequestException
| MaxRetryError | ReadTimeoutError
| ClientException
| Redirect | NotFound
| NameError | KeyError | TypeError | IndexError | AttributeError
| KeyboardInterrupt | SystemExit
| OtherException (name : string).

Definition exc_class_eqb (a b : exc_class) : bool :=
  match a, b with
  | ServerError, ServerError | Forbidden, Forbidden
  | ConnectTimeout, ConnectTimeout | RequestException, RequestException
  | MaxRetryError, MaxRetryError | ReadTimeoutError, ReadTimeoutError
  | ClientException, ClientException
  | Redirect, Redirect | NotFound, NotFound
  | NameError, NameError | KeyError, KeyError | TypeError, TypeError
  | IndexError, IndexError | AttributeError, AttributeError
  | KeyboardInterrupt, KeyboardInterrupt | SystemExit, SystemExit => true
  | OtherException x, OtherException y => String.eqb x y
  | _, _ => false
  end.

(** One element of [e.args]: a message, or a wrapped exception. *)
Inductive arg : Type :=
| AStr (s : string)
| AExc (c : exc_class).

(** An exception object: its class, [args], the text of [e.response]
    when it carries a response, and the [args] of
    [e.original_exception] when it wraps one. *)
Record exn : Type := Exn {
  cls : exc_class;
  args : list arg;
  response : option string;
  original_exception : option (list arg)
}.

Definition simple_exn (c : exc_class) (msg : string) : exn :=
  Exn c [AStr msg] None None.

(** [type(e).__name__]. *)
Definition class_name (c : exc_class) : string :=
  match c with
  | ServerError => "ServerError"
  | Forbidden => "Forbidden"
  | ConnectTimeout => "ConnectTimeout"
  | RequestException => "RequestException"
  | MaxRetryError => "MaxRetryError"
  | ReadTimeoutError => "ReadTimeoutError"
  | ClientException => "ClientException"
  | Redirect => "Redirect"
  | NotFound => "NotFound"
  | NameError => "NameError"
  | KeyError => "KeyError"
  | TypeError => "TypeError"
  | IndexError => "IndexError"
  | AttributeError => "AttributeError"
  | KeyboardInterrupt => "KeyboardInterrupt"
  | SystemExit => "SystemExit"
  | OtherException name => name
  end.

(** [isinstance(e, Exception)]: everything but the exit signals. *)
Definition is_Exception (e : exn) : bool :=
  match cls e with
  | KeyboardInterrupt | SystemExit => false
  | _ => true
  end.

(** A decoded JSON document. *)
Inductive json : Type :=
| JNull
| JBool (b : bool)
| JNum (z : Z)
| JStr (s : string)
| JArr (items : list json)
| JObj (fields : list (string * json)).

Fixpoint assoc {A : Type} (key : string) (l : list (string * A)) : option A :=
  match l with
  | [] => None
  | (k, v) :: l' => if String.eqb k key then Some v else assoc key l'
  end.

(** [obj[key]] for a string key. *)
Definition json_subscript (obj : json) (key : string) : exn + json :=
  match obj with
  | JObj fields =>
      match assoc key fields with
      | Some v => inr v
      | None => inl (simple_exn KeyError key)
      end
  | JArr _ => inl (simple_exn TypeError "list indices must be integers or slices, not str")
  | JStr _ => inl (simple_exn TypeError "string indices must be integers, not 'str'")
  | JNum _ => inl (simple_exn TypeError "'int' object is not subscriptable")
  | JBool _ => inl (simple_exn TypeError "'bool' object is not subscriptable")
  | JNull => inl (simple_exn TypeError "'NoneType' object is not subscriptable")
  end.

Definition json_eq_str (v : json) (s : string) : bool :=
  match v with
  | JStr s' => String.eqb s' s
  | _ => false
  end.

(** [s.lower()]. *)
Definition lower (s : string) : string :=
  string_of_list_ascii (map Re.lower_ascii (list_ascii_of_string s)).

(** [x in l] for a list of strings. *)
Definition str_in (x : string) (l : list string) : bool :=
  existsb (String.eqb x) l.

Section Monad.
(** The calls a computation makes, in order. *)
Context {call : Type}.

Definition M (A : Type) : Type := (list call * (exn + A))%type.

Definition ret {A : Type} (a : A) : M A := ([], inr a).
Definition raise {A : Type} (e : exn) : M A := ([], inl e).
Definition emit (c : call) : M unit := ([c], inr tt).

Definition bind {A B : Type} (m : M A) (f : A -> M B) : M B :=
  match m with
  | (t, inl e) => (t, inl e)
  | (t, inr a) => let '(t', r) := f a in (t ++ t', r)
  end.

(** Lift the answer of the environment. *)
Definition answer {A : Type} (r : exn + A) : M A := ([], r).

Definition trace {A : Type} (m : M A) : list call := fst m.
Definition outcome {A : Type} (m : M A) : exn + A := snd m.
End Monad.

Arguments M : clear implicits.

End Py.

Notation "x <- m ;; k" := (Py.bind m (fun x => k))
  (at level 100, m at next level, right associativity).
Notation "m ;;; k" := (Py.bind m (fun _ => k))
  (at level 100, right associativity).

(** ** phase1_handler.py *)

Module Phase1.
Import Re Py.

(** A comment as the platform client presents it. *)
Record comment : Type := Comment {
  id_ : string;
  permalink : string;
  body : string;
  parent_id : string;
  link_id : string;
  distinguished : option string;
  subreddit_display_name : string;
  submission_title : string;
  submission_url : string;
  score : Z
}.

(** A submission, or a post the repost detector reports. *)
Record submission : Type := Submission { post_permalink : string }.

(** The calls Phase-1 and Phase-2 make to the outside. *)
Inductive call : Type :=
| Search (subreddit query : string)
| GetRepostsInSub (c : comment) (subreddit : string)
| Reply (username : option string) (comment_id text : string)
| AddComment (c : comment)
| FetchComment (url : string)
| SetCommentChecked (entry : gmap string string)
| DeleteComment (entry : gmap string string).

Definition SUBREDDIT_NAME_LENGTH_LIMIT : nat := 24.

Definition is_mod_post (c : comment) : bool :=
  match distinguished c with
  | Some d => String.eqb d "moderator"
  | None => false
  end.

Definition is_top_level_comment (c : comment) : bool :=
  String.eqb (parent_id c) (link_id c).

(** [\bsub\b|\bsubs\b|\bsubreddit\b|\bsubreddits\b], IGNORECASE.  Word
    characters and letter case are the ASCII ones: the filter is that
    of the source on titles made of ASCII characters. *)
Definition prohibited_phrases : regex :=
  alternatives
    (map (fun x => Cat WordB (Cat (word x) WordB))
         ["sub"; "subs"; "subreddit"; "subreddits"]).

Definition title_contains_prohibited_phrases (c : comment) : bool :=
  match search true prohibited_phrases (submission_title c) with
  | Some _ => true
  | None => false
  end.

(** [[a-zA-Z0-9-_]]: after the range [0-9] the hyphen and the
    underscore stand for themselves. *)
Definition name_class : list (ascii * ascii) :=
  [("a", "z"); ("A", "Z"); ("0", "9"); ("-", "-"); ("_", "_")]%char.

(** [^(/)?r/([a-zA-Z0-9-_]+)$] *)
Definition subreddit_regex : regex :=
  Cat Bol
 (Cat (Opt (Group 1 (Lit "/")))
 (Cat (Lit "r")
 (Cat (Lit "/")
 (Cat (Group 2 (Plus (Class name_class)))
      Eol)))).

Definition check_pattern (c : comment) : option string :=
  match search false subreddit_regex (body c) with
  | None => None
  | Some search_result =>
      let groups := groups subreddit_regex search_result in
      let target_subreddit := nth 1 groups None in
      target_subreddit
  end.

(** The [Result] object of [get_posts_with_same_content]. *)
Record Result : Type := MkResult {
  posts_found : bool;
  posts : list submission;
  unable_to_search : bool;
  unable_to_search_reason : option string
}.

Definition quote : string := String "034"%char EmptyString.

Section Handler.
(** [consts.SUB_BLACKLIST] and the two account names of
    [reddit_instantiator]. *)
Variable SUB_BLACKLIST : list string.
Variable SAME_SUBREDDIT_BOT_NAME : string.
Variable SUB_DOESNT_EXIST_BOT_NAME : string.
(** [my_i18n.get_translated_string] and [str.format] with keyword
    arguments. *)
Variable get_translated_string : string -> string -> string.
Variable format : string -> list (string * string) -> string.
(** [json.loads]; [None] is a [JSONDecodeError]. *)
Variable json_loads : string -> option json.
(** The search endpoint: the submissions of
    [reddit.subreddit(s).search(query, sort='new', time_filter='all')],
    or the exception raised while they are fetched. *)
Variable reddit_search : string -> string -> exn + list submission.
(** [repost_detector.get_reposts_in_sub]. *)
Variable get_reposts_in_sub : comment -> string -> list submission.

Definition args0 (e : exn) : M call arg :=
  match args e with
  | a :: _ => ret a
  | [] => raise (simple_exn IndexError "tuple index out of range")
  end.

Definition msg_eq (a : arg) (s : string) : bool :=
  match a with
  | AStr s' => String.eqb s' s
  | AExc _ => false
  end.

Definition response_text (e : exn) : M call string :=
  match response e with
  | Some text => ret text
  | None =>
      raise (simple_exn AttributeError
               ("'" ++ class_name (cls e)
                    ++ "' object has no attribute 'response'")%string)
  end.

Definition get_posts_with_same_content (c : comment) (subreddit : string)
  : M call Result :=
  let result := MkResult false [] false None in
  let query := ("url:" ++ quote ++ submission_url c ++ quote)%string in
  emit (Search subreddit query) ;;;
  match reddit_search subreddit query with
  | inl e =>
      if negb (is_Exception e) then raise e else
      error_message <- args0 e ;;
      if msg_eq error_message "Redirect to /submit" then
        ret result
      else if msg_eq error_message "Redirect to /subreddits/search"
              || msg_eq error_message "received 404 HTTP response" then
        text <- response_text e ;;
        let not_exist :=
          MkResult (posts_found result) (posts result) true
                   (Some "SUBREDDIT_DOES_NOT_EXIST") in
        if negb (String.eqb text "") then
          match json_loads text with
          | Some response_obj =>
              reason <- answer (json_subscript response_obj "reason") ;;
              if json_eq_str reason "banned" then
                ret (MkResult (posts_found result) (posts result) true
                              (Some "SUBREDDIT_IS_BANNED"))
              else ret not_exist
          | None => ret not_exist
          end
        else ret not_exist
      else if msg_eq error_message "received 403 HTTP response" then
        ret (MkResult (posts_found result) (posts result) true
                      (Some "SUBREDDIT_IS_PRIVATE"))
      else raise e
  | inr submissions =>
      if (0 <? length submissions)%nat then
        ret (MkResult true submissions
                      (unable_to_search result)
                      (unable_to_search_reason result))
      else
        emit (GetRepostsInSub c subreddit) ;;;
        let prior_posts := get_reposts_in_sub c subreddit in
        match prior_posts with
        | _ :: _ =>
            ret (MkResult true prior_posts
                          (unable_to_search result)
                          (unable_to_search_reason result))
        | [] => ret result
        end
  end.

Definition reply_to_source_equals_target_comment
           (source_comment : comment) (target_subreddit : string)
  : M call unit :=
  let text := get_translated_string "THATS_WHERE_WE_ARE" target_subreddit in
  emit (Reply (Some SAME_SUBREDDIT_BOT_NAME) (id_ source_comment) text).

Definition reply_to_nonexistent_target_subreddit_comment
           (source_comment : comment) (target_subreddit : string)
  : M call unit :=
  let text := get_translated_string "NONEXISTENT_SUBREDDIT" target_subreddit in
  let text := format text [("target_subreddit", target_subreddit)] in
  emit (Reply (Some SUB_DOESNT_EXIST_BOT_NAME) (id_ source_comment) text).

Definition reply_to_same_content_post_comment
           (source_comment : comment) (target_subreddit : string)
           (post_with_same_content : submission) : M call unit :=
  let text :=
    get_translated_string "FOUND_POST_WITH_SAME_CONTENT" target_subreddit in
  let text :=
    format text [("same_content_post_url", post_permalink post_with_same_content);
                 ("target_subreddit", target_subreddit)] in
  emit (Reply None (id_ source_comment) text).

Definition opt_str_eq (o : option string) (s : string) : bool :=
  match o with
  | Some s' => String.eqb s' s
  | None => false
  end.

Definition handle_incoming_comment (c : comment) : M call unit :=
  match check_pattern c with
  | None => ret tt
  | Some target_subreddit =>
      if (SUBREDDIT_NAME_LENGTH_LIMIT <? String.length target_subreddit)%nat
      then ret tt
      else if is_mod_post c then ret tt
      else if title_contains_prohibited_phrases c then ret tt
      else
        let source_subreddit := lower (subreddit_display_name c) in
        if str_in (lower target_subreddit) SUB_BLACKLIST
           || str_in source_subreddit SUB_BLACKLIST
        then ret tt
        else if String.eqb (lower target_subreddit) source_subreddit then
          reply_to_source_equals_target_comment c target_subreddit
        else
          result_obj <- get_posts_with_same_content c target_subreddit ;;
          if posts_found result_obj then
            match posts result_obj with
            | post_with_same_content :: _ =>
                reply_to_same_content_post_comment
                  c target_subreddit post_with_same_content
            | [] => raise (simple_exn IndexError "list index out of range")
            end
          else if unable_to_search result_obj
                  && opt_str_eq (unable_to_search_reason result_obj)
                                "SUBREDDIT_DOES_NOT_EXIST"
          then reply_to_nonexistent_target_subreddit_comment c target_subreddit
          else if negb (is_top_level_comment c) then ret tt
          else emit (AddComment c)
  end.
End Handler.

End Phase1.

(** ** phase2_handler.py *)

Module Phase2.
Import Py.
Import Phase1 (call, Search, GetRepostsInSub, Reply, AddComment,
               FetchComment, SetCommentChecked, DeleteComment, submission).

(** What a name is bound to in a namespace. *)
Inductive value : Type :=
| VNone
| VBool (b : bool)
| VStr (s : string)
| VRef (name : string).

(** The names bound at module level in [phase2_handler] once it is
    imported: the module attributes, the imports and the functions. *)
Definition module_globals : gmap string value :=
  list_to_map
    (map (fun n => (n, VRef n))
       ["__name__"; "__doc__"; "__package__"; "__loader__"; "__spec__";
        "__file__"; "__cached__"; "__builtins__";
        "logging"; "os"; "concurrent"; "praw"; "pytimeparse";
        "racb_db"; "reddit_instantiator"; "repost_detector"; "phase1_handler";
        "filter_comments_from_db"; "run_filters";
        "get_full_comment_from_reddit"; "check_comment_availability";
        "process_comment_entry"]).

(** The exception a failed look-up of [target_subreddit] raises. *)
Definition unbound_target_subreddit : Py.exn :=
  simple_exn NameError "name 'target_subreddit' is not defined".

(** A comment object not fetched yet: the URL it was made from. *)
Definition lazy_comment : Type := string.

(** The [Result] object of [run_filters]. *)
Record Result : Type := MkResult {
  passes_filter : bool;
  reason : option string;
  comment : option lazy_comment;
  target_subreddit : option string;
  post_with_same_content : option submission
}.

(** The two kinds of object [process_comment_entry] compares: an
    instance of [Result] (with its identity) and a [bool]. *)
Inductive pyobj : Type :=
| Instance (oid : nat) (r : Result)
| PyBool (b : bool).

(** [a is b]. *)
Definition is_ (a b : pyobj) : bool :=
  match a, b with
  | Instance i _, Instance j _ => Nat.eqb i j
  | PyBool x, PyBool y => Bool.eqb x y
  | _, _ => false
  end.

(** [object.__eq__] and [object.__ne__], which [Result] inherits:
    [None] is [NotImplemented]. *)
Definition object_eq (a b : pyobj) : option bool :=
  if is_ a b then Some true else None.
Definition object_ne (a b : pyobj) : option bool :=
  option_map negb (object_eq a b).

(** [bool.__ne__]. *)
Definition bool_ne (x : bool) (b : pyobj) : option bool :=
  match b with
  | PyBool y => Some (xorb x y)
  | Instance _ _ => None
  end.

Definition type_ne (a b : pyobj) : option bool :=
  match a with
  | Instance _ _ => object_ne a b
  | PyBool x => bool_ne x b
  end.

(** [a != b]: the method of the left operand, then the reflected one,
    then the comparison of identities. *)
Definition py_ne (a b : pyobj) : bool :=
  match type_ne a b with
  | Some r => r
  | None =>
      match type_ne b a with
      | Some r => r
      | None => negb (is_ a b)
      end
  end.

Section Filters.
Variable json_loads : string -> option json.
Variable reddit_search : string -> string -> exn + list submission.
Variable get_reposts_in_sub : Phase1.comment -> string -> list submission.
(** The [builtins] namespace. *)
Variable builtins : gmap string value.
(** [os.environ], and [int] on what [os.environ.get] returns. *)
Variable environ : gmap string string.
Variable int : option string -> exn + Z.
(** What fetching the comment behind a URL gives. *)
Variable reddit_comment : string -> exn + Phase1.comment.

(** How a class body reads a name it also binds: its own namespace,
    then the globals of the module, then the builtins; the local
    variables of the enclosing function are not consulted. *)
Definition load_name (locals : gmap string value) (name : string)
  : M call value :=
  match locals !! name with
  | Some v => ret v
  | None =>
      match module_globals !! name with
      | Some v => ret v
      | None =>
          match builtins !! name with
          | Some v => ret v
          | None =>
              raise (simple_exn NameError
                       ("name '" ++ name ++ "' is not defined")%string)
          end
      end
  end.

(** The body of [class Result] in [run_filters]. *)
Definition class_Result : M call (gmap string value) :=
  let ns : gmap string value := ∅ in
  let ns := <["passes_filter" := VBool false]> ns in
  let ns := <["reason" := VNone]> ns in
  let ns := <["comment" := VNone]> ns in
  v <- load_name ns "target_subreddit" ;;
  let ns := <["target_subreddit" := v]> ns in
  let ns := <["post_with_same_content" := VNone]> ns in
  ret ns.

Definition get_full_comment_from_reddit (permalink_without_prefix : string)
  : lazy_comment :=
  ("https://www.reddit.com" ++ permalink_without_prefix)%string.

Definition check_comment_availability (c : lazy_comment) : M call bool :=
  emit (FetchComment c) ;;;
  match reddit_comment c with
  | inr _ => ret true
  | inl e =>
      if exc_class_eqb (cls e) ClientException then ret false else raise e
  end.

Definition subscript (d : gmap string string) (key : string)
  : M call string :=
  match d !! key with
  | Some v => ret v
  | None => raise (simple_exn KeyError key)
  end.

(** The statements of [run_filters] after the class statement;
    [class_ns] holds the class attributes a new instance shows. *)
Definition run_filters_checks (class_ns : gmap string value)
           (comment_entry : gmap string string) : M call Result :=
  let result :=
    MkResult false None None
             (match class_ns !! "target_subreddit" with
              | Some (VStr s) => Some s
              | _ => None
              end)
             None in
  permalink <- subscript comment_entry "permalink" ;;
  let comment := get_full_comment_from_reddit permalink in
  let result := MkResult (passes_filter result) (reason result)
                         (Some comment) (target_subreddit result)
                         (post_with_same_content result) in
  available <- check_comment_availability comment ;;
  if negb available then
    ret (MkResult (passes_filter result) (Some "COMMENT_UNAVAILABLE")
                  (Some comment) (target_subreddit result)
                  (post_with_same_content result))
  else
    comment_score_threshold <-
      answer (int (environ !! "COMMENT_SCORE_THRESHOLD")) ;;
    fetched <- answer (reddit_comment comment) ;;
    if (Phase1.score fetched <? comment_score_threshold)%Z then
      ret (MkResult (passes_filter result) (Some "COMMENT_SCORE_TOO_LOW")
                    (Some comment) (target_subreddit result)
                    (post_with_same_content result))
    else
      let target := Phase1.check_pattern fetched in
      let result := MkResult (passes_filter result) (reason result)
                             (Some comment) target
                             (post_with_same_content result) in
      match target with
      | None =>
          ret (MkResult (passes_filter result)
                        (Some "TARGET_SUBREDDIT_NOT_FOUND")
                        (Some comment) target
                        (post_with_same_content result))
      | Some name =>
          gpwsc_result <-
            Phase1.get_posts_with_same_content
              json_loads reddit_search get_reposts_in_sub fetched name ;;
          if Phase1.posts_found gpwsc_result then
            match Phase1.posts gpwsc_result with
            | post :: _ =>
                ret (MkResult (passes_filter result)
                              (Some "POST_WITH_SAME_CONTENT_FOUND")
                              (Some comment) target (Some post))
            | [] => raise (simple_exn IndexError "list index out of range")
            end
          else if Phase1.unable_to_search gpwsc_result then
            let unable_to_search_reason :=
              match Phase1.unable_to_search_reason gpwsc_result with
              | Some r => r
              | None => "None"
              end in
            ret (MkResult (passes_filter result)
                   (Some ("UNABLE_TO_SEARCH_TARGET_SUBREDDIT_BECAUSE__"
                            ++ unable_to_search_reason)%string)
                   (Some comment) target (post_with_same_content result))
          else
            ret (MkResult true (reason result) (Some comment) target
                          (post_with_same_content result))
      end.

Definition run_filters (comment_entry : gmap string string)
  : M call Result :=
  class_ns <- class_Result ;;
  run_filters_checks class_ns comment_entry.

(** The statements of [process_comment_entry] once [run_filters] has
    returned the instance [result], whose identity is [oid]. *)
Definition process_result (oid : nat) (result : Result)
           (comment_entry : gmap string string) : M call unit :=
  let passed := py_ne (Instance oid result) (PyBool false) in
  if passed
  then emit (SetCommentChecked comment_entry)
  else emit (DeleteComment comment_entry).

Definition process_comment_entry (comment_entry : gmap string string)
  : M call unit :=
  result <- run_filters comment_entry ;;
  process_result 0 result comment_entry.
End Filters.

End Phase2.

(** ** RedditAutoCrosspostBot.py *)

Module Main.
Import Py.

(** What the main loop does that can be seen from outside. *)
Inductive action : Type :=
| LogInfo (msg : string) (about : option exn)
| LogException (e : exn)
| ScheduleEvery (n : nat) (unit_ job : string)
| RunAll
| OpenStream (subreddits : string)
| HandleIncomingComment (c : Phase1.comment)
| RunPending
| Sleep (seconds : nat).

(** What the outside does next, as the loop meets it: the stream
    yields a comment (and [listener.handle_incoming_comment] and then
    [schedule.run_pending] return or raise), the stream raises, or the
    stream ends. *)
Inductive stream_step : Type :=
| Yield (c : Phase1.comment) (handling pending : option exn)
| StreamRaise (e : exn)
| StreamEnd.

(** How a call stands when the script of the outside is used up or the
    call is over. [Waiting]: blocked on the stream for the next item. *)
Inductive status : Type :=
| Returned
| Raised (e : exn)
| Waiting
| OutOfFuel.

Section Loop.
(** [environment.DEBUG] and [environment.LISTEN_ONLY]. *)
Variable DEBUG : bool.
Variable LISTEN_ONLY : bool.

(** The [for] loop of [listen_to_comment_stream]. *)
Fixpoint for_comments (script : list stream_step)
  : list action * status * list stream_step :=
  match script with
  | [] => ([], Waiting, [])
  | StreamEnd :: rest => ([], Returned, rest)
  | StreamRaise e :: rest => ([], Raised e, rest)
  | Yield c handling pending :: rest =>
      let '(t, raised) :=
        match handling with
        | Some e => ([HandleIncomingComment c], Some e)
        | None => ([HandleIncomingComment c; RunPending], pending)
        end in
      match raised with
      | None =>
          let '(t', s, rest') := for_comments rest in (t ++ t', s, rest')
      | Some e =>
          if is_Exception e then
            if DEBUG then (t ++ [LogException e], Raised e, rest)
            else
              let '(t', s, rest') := for_comments rest in
              (t ++ LogException e :: t', s, rest')
          else (t, Raised e, rest)
      end
  end.

Definition listen_to_comment_stream (script : list stream_step)
  : list action * status * list stream_step :=
  let scanned_subreddits := "all" in
  let '(t, s, rest) := for_comments script in
  (OpenStream scanned_subreddits
     :: LogInfo "Listening to comment stream..." None :: t, s, rest).

Definition is_network_fault (e : exn) : bool :=
  match cls e with
  | ServerError | Forbidden | ConnectTimeout => true
  | _ => false
  end.

Definition is_max_retry_or_read_timeout_error (e : exn) : bool :=
  match original_exception e with
  | Some (AExc MaxRetryError :: _) | Some (AExc ReadTimeoutError :: _) => true
  | _ => false
  end.

(** The [while True] loop of [main]; each round uses up at least one
    item of the script, which [fuel] bounds. *)
Fixpoint main_loop (fuel : nat) (script : list stream_step)
  : list action * status :=
  match fuel with
  | O => ([], OutOfFuel)
  | S fuel' =>
      let '(t, s, rest) := listen_to_comment_stream script in
      match s with
      | Returned =>
          let '(t', s') := main_loop fuel' rest in (t ++ t', s')
      | Raised e =>
          if is_network_fault e then
            if DEBUG then (t, Raised e)
            else
              let '(t', s') := main_loop fuel' rest in
              (t ++ LogInfo "Ecnountered network error {e}. Waiting and retrying."
                         (Some e)
                 :: Sleep 30 :: t', s')
          else if exc_class_eqb (cls e) RequestException then
            if is_max_retry_or_read_timeout_error e then
              let '(t', s') := main_loop fuel' rest in
              (t ++ LogInfo "Ecnountered network error {e}. Waiting and retrying."
                         (Some e)
                 :: Sleep 30 :: t', s')
            else (t, Raised e)
          else (t, Raised e)
      | Waiting => (t, Waiting)
      | OutOfFuel => (t, OutOfFuel)
      end
  end.

Definition main (script : list stream_step) : list action * status :=
  let t0 :=
    [LogInfo "Running RedditAutoCrosspostBot" None;
     ScheduleEvery 7 "minutes" "unwated_submission_remover.delete_unwanted_submissions";
     ScheduleEvery 20 "seconds" "inbox_responder.respond_to_inbox"]
    ++ (if negb LISTEN_ONLY
        then [ScheduleEvery 6 "minutes" "replier.respond_to_saved_comments"]
        else [])
    ++ (if DEBUG then [RunAll] else []) in
  let '(t, s) := main_loop (S (length script)) script in
  (t0 ++ t, s).
End Loop.

End Main.

(** ** The shape of a bare community reference, in the words of the
    specification *)

Module Shape.
Import Re Phase1.

(** Longest prefix of class characters, and what follows it. *)
Fixpoint take_class (ranges : list (ascii * ascii)) (l : list ascii)
  : list ascii * list ascii :=
  match l with
  | x :: rest =>
      if in_class ranges x
      then let '(name, tail) := take_class ranges rest in (x :: name, tail)
      else ([], l)
  | [] => ([], [])
  end.

(** What [subreddit_regex] accepts, read off directly: [r/], the
    longest run of name characters, the end. *)
Definition parse_tail (l : list ascii) : option (list ascii) :=
  match l with
  | "r"%char :: "/"%char :: rest =>
      let '(name, tail) := take_class name_class rest in
      match name with
      | [] => None
      | _ :: _ => if at_eol tail then Some name else None
      end
  | _ => None
  end.

Definition parse (l : list ascii) : option (list ascii) :=
  parse_tail (match l with
              | "/"%char :: t => t
              | _ => l
              end).

Definition is_letter (c : ascii) : bool :=
  in_range c ("a", "z")%char || in_range c ("A", "Z")%char.
Definition is_digit (c : ascii) : bool := in_range c ("0", "9")%char.
Definition allowed_char (c : ascii) : bool :=
  is_letter c || is_digit c || Ascii.eqb c "-" || Ascii.eqb c "_".

(** One or more allowed characters. *)
Definition valid_name (name : string) : Prop :=
  name <> "" /\ Forall (fun c => allowed_char c = true) (list_ascii_of_string name).

Definition exact_shape (b name : string) : Prop :=
  valid_name name /\ (b = "r/" ++ name \/ b = "/r/" ++ name)%string.

Definition line_feed : string := String newline EmptyString.

(** [s.strip()] on the ASCII white space. *)
Definition is_space (c : ascii) : bool :=
  existsb (Ascii.eqb c) ["032"; "009"; "010"; "011"; "012"; "013"]%char.
Fixpoint lstrip (l : list ascii) : list ascii :=
  match l with
  | x :: rest => if is_space x then lstrip rest else l
  | [] => []
  end.
Definition strip (s : string) : string :=
  string_of_list_ascii (rev (lstrip (rev (lstrip (list_ascii_of_string s))))).
(** The part of [subreddit_regex] after the optional slash. *)
Definition after_slash : regex :=
  Cat (Lit "r") (Cat (Lit "/") (Cat (Group 2 (Plus (Class name_class))) Eol)).
End Shape.


(** ** The vocabulary of the specification for the two pipelines *)

Module Pipeline.
Import Py Phase1.

(** The tagged outcome of a duplicate search. *)
Inductive SearchOutcome : Type :=
| FOUND (found : list submission)
| NOT_FOUND
| UNABLE (why : option string).

Definition outcome_of (r : Result) : SearchOutcome :=
  if posts_found r then FOUND (posts r)
  else if unable_to_search r then UNABLE (unable_to_search_reason r)
  else NOT_FOUND.

(** Calls that change something outside: a reply posted, a staging
    record inserted, marked or deleted.  The others only ask. *)
Definition is_side_effect (x : call) : bool :=
  match x with
  | Reply _ _ _ | AddComment _ | SetCommentChecked _ | DeleteComment _ => true
  | Search _ _ | GetRepostsInSub _ _ | FetchComment _ => false
  end.

Definition side_effects (t : list call) : list call :=
  List.filter is_side_effect t.

Definition is_reply (x : call) : bool :=
  match x with
  | Reply _ _ _ => true
  | _ => false
  end.

Definition is_insert (x : call) : bool :=
  match x with
  | AddComment _ => true
  | _ => false
  end.

Definition is_delete (x : call) : bool :=
  match x with
  | DeleteComment _ => true
  | _ => false
  end.

(** The comment matched [target] and passed every filter that comes
    before the search: length, moderator, title, blacklist, and it does
    not name the community it was posted in. *)
Definition reaches_search (SUB_BLACKLIST : list string)
           (c : comment) (target : string) : Prop :=
  check_pattern c = Some target /\
  (SUBREDDIT_NAME_LENGTH_LIMIT <? String.length target)%nat = false /\
  is_mod_post c = false /\
  title_contains_prohibited_phrases c = false /\
  str_in (lower target) SUB_BLACKLIST = false /\
  str_in (lower (subreddit_display_name c)) SUB_BLACKLIST = false /\
  String.eqb (lower target) (lower (subreddit_display_name c)) = false.

(** The query [get_posts_with_same_content] sends for a comment. *)
Definition query_of (c : comment) : string :=
  ("url:" ++ quote ++ submission_url c ++ quote)%string.

Section Replies.
Variable SUB_DOESNT_EXIST_BOT_NAME : string.
Variable get_translated_string : string -> string -> string.
Variable format : string -> list (string * string) -> string.

(** The nonexistent-target reply to a comment. *)
Definition nonexistent_reply (c : comment) (target : string) : call :=
  Reply (Some SUB_DOESNT_EXIST_BOT_NAME) (id_ c)
        (format (get_translated_string "NONEXISTENT_SUBREDDIT" target)
                [("target_subreddit", target)]).

(** The duplicate-content reply to a comment. *)
Definition same_content_reply (c : comment) (target : string)
           (p : submission) : call :=
  Reply None (id_ c)
        (format (get_translated_string "FOUND_POST_WITH_SAME_CONTENT" target)
                [("same_content_post_url", post_permalink p);
                 ("target_subreddit", target)]).

(** The calls of [handle_incoming_comment] that follow a search
    answered with [r]. *)
Definition after_search (c : comment) (target : string) (r : Result)
  : list call :=
  if posts_found r then
    match posts r with
    | p :: _ => [same_content_reply c target p]
    | [] => []
    end
  else if unable_to_search r
          && opt_str_eq (unable_to_search_reason r) "SUBREDDIT_DOES_NOT_EXIST"
  then [nonexistent_reply c target]
  else if is_top_level_comment c then [AddComment c] else [].
End Replies.

End Pipeline.

(** ** Sample comments and a sample platform, for the concrete cases *)

Module Sample.
Import Py Phase1.

Definition q (s : string) : string := (quote ++ s ++ quote)%string.

(** The body of the platform's 404 answer, plain and for a banned
    community. *)
Definition not_found_text : string :=
  ("{" ++ q "message" ++ ": " ++ q "Not Found" ++ ", "
       ++ q "error" ++ ": 404}")%string.
Definition banned_text : string :=
  ("{" ++ q "reason" ++ ": " ++ q "banned" ++ ", "
       ++ q "message" ++ ": " ++ q "Not Found" ++ ", "
       ++ q "error" ++ ": 404}")%string.

Definition json_loads (text : string) : option json :=
  if String.eqb text not_found_text then
    Some (JObj [("message", JStr "Not Found"); ("error", JNum 404)])
  else if String.eqb text banned_text then
    Some (JObj [("reason", JStr "banned"); ("message", JStr "Not Found");
                ("error", JNum 404)])
  else None.

Definition cat_post : submission := Submission "/r/cats/comments/9/a_cat/".
Definition old_post : submission := Submission "/r/newsub/comments/3/a_cat/".

(** A platform with a few communities. *)
Definition reddit_search (subreddit query : string) : exn + list submission :=
  if String.eqb subreddit "cats" then inr [cat_post]
  else if String.eqb subreddit "quiet" then inr []
  else if String.eqb subreddit "newsub" then
    inl (Exn Redirect [AStr "Redirect to /submit"] (Some "") None)
  else if String.eqb subreddit "doesnotexist123" then
    inl (Exn Redirect [AStr "Redirect to /subreddits/search"] (Some "") None)
  else if String.eqb subreddit "gone" then
    inl (Exn NotFound [AStr "received 404 HTTP response"]
             (Some not_found_text) None)
  else if String.eqb subreddit "bannedsub" then
    inl (Exn NotFound [AStr "received 404 HTTP response"]
             (Some banned_text) None)
  else if String.eqb subreddit "secret" then
    inl (Exn Forbidden [AStr "received 403 HTTP response"] (Some "") None)
  else
    inl (Exn ServerError [AStr "received 503 HTTP response"] (Some "") None).

Definition no_reposts (c : comment) (subreddit : string) : list submission :=
  [].
Definition seen_before (c : comment) (subreddit : string) : list submission :=
  [old_post].

Definition SUB_BLACKLIST : list string := ["suicidewatch"; "depression"].

Definition get_translated_string (key target : string) : string := key.
Definition format (text : string) (kw : list (string * string)) : string :=
  fold_left (fun acc p => (acc ++ " " ++ fst p ++ "=" ++ snd p)%string) kw text.

(** A comment with the given body and parent on submission [t3_1] of
    [r/pics]. *)
Definition says (b parent : string) : comment :=
  Comment "c1" "/r/pics/comments/1/a_cat/c1/" b parent "t3_1" None
          "pics" "A cat" "http://i.example/cat.png" 5.

Definition handle : comment -> M call unit :=
  handle_incoming_comment SUB_BLACKLIST "same_subreddit_bot" "sub_doesnt_exist_bot"
    get_translated_string format json_loads reddit_search no_reposts.

(** The surroundings of Phase-2: a few builtins, the environment
    variables, [int] on them, and the comments that can be fetched. *)
Definition builtins : gmap string Phase2.value :=
  list_to_map
    (map (fun n => (n, Phase2.VRef n))
       ["int"; "len"; "isinstance"; "Exception"; "print"; "str"; "bool"]).

Definition environ : gmap string string :=
  <["COMMENT_SCORE_THRESHOLD" := "2"]> (<["PHASE2_WAITING_PERIOD" := "2h"]> ∅).

Definition int (o : option string) : exn + Z :=
  match o with
  | Some s =>
      if String.eqb s "2" then inr 2%Z
      else inl (simple_exn (OtherException "ValueError")
                           "invalid literal for int() with base 10")
  | None =>
      inl (simple_exn TypeError
             "int() argument must be a string, a bytes-like object or a real number, not 'NoneType'")
  end.

Definition reddit_comment (url : string) : exn + comment :=
  if String.eqb url "https://www.reddit.com/r/pics/comments/1/a_cat/c1/"
  then inr (says "r/newsub" "t3_1")
  else inl (simple_exn ClientException "comment unavailable").

(** Two staging records: one of a comment still there, one of a
    comment deleted since. *)
Definition kept_entry : gmap string string :=
  <["permalink" := "/r/pics/comments/1/a_cat/c1/"]> ∅.
Definition deleted_entry : gmap string string :=
  <["permalink" := "/r/pics/comments/1/a_cat/c2/"]> ∅.

End Sample.

(** ** The vocabulary of the specification for the stream consumer *)

Module Faults.
Import Py Main.

(** The faults [main] recovers from: upstream service errors, forbidden
    responses, connection timeouts, and request failures that wrap a
    max-retries-exceeded or read-timeout fault. *)
Definition recoverable (e : exn) : bool :=
  is_network_fault e
  || (exc_class_eqb (cls e) RequestException
      && is_max_retry_or_read_timeout_error e).

Definition raises_Exception (o : option exn) : bool :=
  match o with
  | Some e => is_Exception e
  | None => true
  end.

(** A step of the outside that the loop is meant to live through: the
    stream raises nothing but recoverable faults, and what the handling
    of an event raises is an [Exception]. *)
Definition survivable (s : stream_step) : bool :=
  match s with
  | Yield _ handling pending =>
      raises_Exception handling && raises_Exception pending
  | StreamRaise e => recoverable e
  | StreamEnd => true
  end.

(** What one round of [listen_to_comment_stream] begins with. *)
Definition fresh_stream : list action :=
  [OpenStream "all"; LogInfo "Listening to comment stream..." None].

(** What [main] does on a recoverable fault. *)
Definition cool_down (e : exn) : list action :=
  [LogInfo "Ecnountered network error {e}. Waiting and retrying." (Some e);
   Sleep 30].

(** A request failure that wraps neither a max-retries-exceeded nor a
    read-timeout fault. *)
Definition connection_reset : exn :=
  Exn RequestException [AStr "error with request"] None
      (Some [AStr "Connection reset by peer"]).

End Faults.

(** ** Prohibited phrases in a title, read off directly *)

Module Phrases.
Import Re.

Definition prohibited_words : list string :=
  ["sub"; "subs"; "subreddit"; "subreddits"].

(** [w], in any letter case, at the head of [ahd]: what is passed and
    what remains. *)
Fixpoint strip_word (w : string) (bef ahd : list ascii)
  : option (list ascii * list ascii) :=
  match w with
  | EmptyString => Some (bef, ahd)
  | String c w' =>
      match ahd with
      | x :: rest =>
          if lit_eq true x c then strip_word w' (x :: bef) rest else None
      | [] => None
      end
  end.

(** [\b] between [bef] and [ahd]. *)
Definition boundary (bef ahd : list ascii) : bool :=
  xorb (word_at bef) (word_at ahd).

(** [\bw\b] at a position. *)
Definition phrase_here (w : string) (bef ahd : list ascii) : bool :=
  boundary bef ahd
  && match strip_word w bef ahd with
     | Some (bef', rest) => boundary bef' rest
     | None => false
     end.

Definition any_phrase_here (bef ahd : list ascii) : bool :=
  existsb (fun w => phrase_here w bef ahd) prohibited_words.

(** Some position from here on satisfies [p]. *)
Fixpoint any_position (p : list ascii -> list ascii -> bool)
         (bef ahd : list ascii) : bool :=
  p bef ahd
  || match ahd with
     | x :: rest => any_position p (x :: bef) rest
     | [] => false
     end.

(** The last, and the first, character of a string is a word character. *)
Definition ends_in_word (s : string) : bool :=
  word_at (rev (list_ascii_of_string s)).
Definition starts_with_word (s : string) : bool :=
  word_at (list_ascii_of_string s).

(** Every character of the string is an ASCII one. *)
Definition is_ascii (s : string) : bool :=
  forallb (fun c => (code c <? 128)%nat) (list_ascii_of_string s).

End Phrases.

(** ** phase2_handler.py: the batch *)

Module Batch.
Import Py.
Import Phase1 (call, submission).

(** One run of [filter_comments_from_db]: how the calling thread ends,
    and the run of [process_comment_entry] in a worker for each record
    handed to [executor.map].  What a worker raises stays in its
    future, which nobody reads; the order in time of the workers'
    calls is left open. *)
Record run : Type := Run {
  main_thread : exn + unit;
  workers : list (M call unit)
}.

Section FilterCommentsFromDb.
Variable json_loads : string -> option json.
Variable reddit_search : string -> string -> exn + list submission.
Variable get_reposts_in_sub : Phase1.comment -> string -> list submission.
Variable builtins : gmap string Phase2.value.
Variable environ : gmap string string.
Variable int : option string -> exn + Z.
Variable reddit_comment : string -> exn + Phase1.comment.
(** [pytimeparse.timeparse.timeparse] on what [os.environ.get] returns;
    [None] for a string it cannot read. *)
Variable timeparse : option string -> exn + option Z.
(** [racb_db.get_unchecked_comments_older_than]. *)
Variable get_unchecked_comments_older_than :
  option Z -> exn + list (gmap string string).

Definition filter_comments_from_db : run :=
  let PHASE2_WAITING_PERIOD := environ !! "PHASE2_WAITING_PERIOD" in
  match timeparse PHASE2_WAITING_PERIOD with
  | inl e => Run (inl e) []
  | inr waiting_period_seconds =>
      match get_unchecked_comments_older_than waiting_period_seconds with
      | inl e => Run (inl e) []
      | inr comment_entries =>
          if (length comment_entries =? 0)%nat then Run (inr tt) []
          else
            Run (inr tt)
                (map (Phase2.process_comment_entry
                        json_loads reddit_search get_reposts_in_sub
                        builtins environ int reddit_comment)
                     comment_entries)
      end
  end.
End FilterCommentsFromDb.

End Batch.

(** ** What a trace of the main loop holds *)

Module Counting.
Import Py Main.

(** The comments handed to [listener.handle_incoming_comment], in order. *)
Fixpoint handled (t : list action) : list Phase1.comment :=
  match t with
  | HandleIncomingComment c :: t' => c :: handled t'
  | _ :: t' => handled t'
  | [] => []
  end.

(** The comments the stream yields, in order. *)
Fixpoint yielded (script : list stream_step) : list Phase1.comment :=
  match script with
  | Yield c _ _ :: script' => c :: yielded script'
  | _ :: script' => yielded script'
  | [] => []
  end.

Definition is_sleep (a : action) : bool :=
  match a with
  | Sleep _ => true
  | _ => false
  end.

Definition is_stream_raise (s : stream_step) : bool :=
  match s with
  | StreamRaise _ => true
  | _ => false
  end.

Definition is_run_pending (a : action) : bool :=
  match a with
  | RunPending => true
  | _ => false
  end.

(** The stream yields a comment whose handling returns. *)
Definition is_handled_ok (s : stream_step) : bool :=
  match s with
  | Yield _ None _ => true
  | _ => false
  end.

Definition count {A : Type} (p : A -> bool) (l : list A) : nat :=
  length (List.filter p l).

End Counting.

(** * The pattern detector *)

Section CheckPattern.
Import Re Phase1 Shape.

Lemma in_class_allowed c : in_class name_class c = allowed_char c.
Proof.
  unfold in_class, name_class, allowed_char, is_letter, is_digit. simpl.
  rewrite orb_false_r.
  assert (E : forall d, in_range c (d, d) = Ascii.eqb c d).
  { intros d. unfold in_range, code. simpl.
    destruct (Ascii.eqb_spec c d) as [->|N].
    - rewrite Nat.leb_refl. reflexivity.
    - apply andb_false_iff.
      destruct (Nat.leb_spec (nat_of_ascii d) (nat_of_ascii c)); [|now left].
      destruct (Nat.leb_spec (nat_of_ascii c) (nat_of_ascii d)); [|now right].
      exfalso. apply N. rewrite <- (ascii_nat_embedding c), <- (ascii_nat_embedding d).
      f_equal. lia. }
  rewrite !E. rewrite !orb_assoc. reflexivity.
Qed.

Lemma newline_not_in_class : in_class name_class newline = false.
Proof. reflexivity. Qed.

Lemma take_class_app ranges l name tail :
  take_class ranges l = (name, tail) ->
  l = name ++ tail /\ Forall (fun c => in_class ranges c = true) name /\
  (match tail with x :: _ => in_class ranges x = false | [] => True end).
Proof.
  revert name tail. induction l as [|x rest IH]; intros name tail; simpl.
  - intros [= <- <-]. repeat split; constructor.
  - destruct (in_class ranges x) eqn:Hx.
    + destruct (take_class ranges rest) as [n t].
      intros [= <- <-]. destruct (IH n t eq_refl) as (-> & Hn & Ht).
      repeat split; [constructor; assumption | assumption].
    + intros [= <- <-]. repeat split; [constructor | assumption].
Qed.

Lemma take_class_complete ranges name tail :
  Forall (fun c => in_class ranges c = true) name ->
  (match tail with x :: _ => in_class ranges x = false | [] => True end) ->
  take_class ranges (name ++ tail) = (name, tail).
Proof.
  intros Hn Ht. induction Hn as [|x n Hx Hn IH]; simpl.
  - destruct tail as [|y t]; [reflexivity|]. simpl. rewrite Ht. reflexivity.
  - rewrite Hx, IH. reflexivity.
Qed.

(** Greedy repetition of a class followed by a test for the end: no
    shorter repetition succeeds where the longest fails. *)
Lemma plus_class_eol ic (f : cursor -> captures -> captures) :
  forall ahd fuel bef caps,
    (length ahd < fuel)%nat ->
    plus_loop (matches ic (Class name_class))
      (fun cur' caps' =>
         if at_eol (ahead cur') then Some (f cur' caps') else None)
      fuel (Cursor bef ahd) caps
    = let '(name, tail) := take_class name_class ahd in
      match name with
      | [] => None
      | _ :: _ =>
          if at_eol tail
          then Some (f (Cursor (rev name ++ bef) tail) caps)
          else None
      end.
Proof.
  induction ahd as [|x rest IH]; intros fuel bef caps Hf.
  - destruct fuel; [inversion Hf|]. reflexivity.
  - destruct fuel as [|fuel]; [inversion Hf|].
    cbn [plus_loop matches ahead before take_class].
    destruct (in_class name_class x) eqn:Hx; [|reflexivity].
    cbn [length]. rewrite (proj2 (Nat.ltb_lt _ _) (Nat.lt_succ_diag_r _)).
    rewrite IH by (cbn [length] in Hf; lia).
    destruct (take_class name_class rest) as [name tail] eqn:Ht.
    destruct name as [|y name].
    + apply take_class_app in Ht. destruct Ht as (-> & _ & _). reflexivity.
    + cbn [rev]. rewrite <- !app_assoc. cbn [app].
      destruct (at_eol tail) eqn:He; [reflexivity|].
      apply take_class_app in Ht. destruct Ht as (-> & Hn & _).
      inversion Hn as [|? ? Hy _]; subst.
      cbn [app at_eol].
      destruct (name ++ tail); [|reflexivity].
      destruct (Ascii.eqb_spec y newline) as [->|]; [|reflexivity].
      rewrite newline_not_in_class in Hy. discriminate.
Qed.

Lemma search_not_at_start x bef ahd :
  search_from false subreddit_regex (x :: bef) ahd = None.
Proof.
  revert x bef. induction ahd as [|y rest IH]; intros x bef.
  - reflexivity.
  - cbn [search_from]. cbn [subreddit_regex matches before]. apply IH.
Qed.

Lemma search_at_start l :
  search_from false subreddit_regex [] l
  = matches false subreddit_regex (Cursor [] l) [] (fun _ caps => Some caps).
Proof.
  destruct l as [|x rest]; cbn [search_from].
  - destruct (matches _ _ _ _ _); reflexivity.
  - rewrite search_not_at_start. destruct (matches _ _ _ _ _); reflexivity.
Qed.

Lemma after_slash_matches bef l caps :
  matches false after_slash (Cursor bef l) caps (fun _ caps' => Some caps')
  = match l with
    | "r"%char :: "/"%char :: rest =>
        let '(name, tail) := take_class name_class rest in
        match name with
        | [] => None
        | _ :: _ => if at_eol tail then Some ((2, name) :: caps) else None
        end
    | _ => None
    end.
Proof.
  unfold after_slash. cbn [matches ahead before lit_eq].
  destruct l as [|a l]; [reflexivity|].
  destruct (Ascii.eqb_spec a "r") as [->|N].
  2:{ destruct a as [[] [] [] [] [] [] [] []]; try reflexivity. congruence. }
  destruct l as [|b rest]; [reflexivity|].
  destruct (Ascii.eqb_spec b "/") as [->|N].
  2:{ destruct b as [[] [] [] [] [] [] [] []]; try reflexivity. congruence. }
  cbn [ahead before].
  rewrite (plus_class_eol false
             (fun cur' caps' =>
                (2, between (Cursor ("/"%char :: "r"%char :: bef) rest) cur') :: caps'))
    by (cbn [length]; lia).
  destruct (take_class name_class rest) as [name tail] eqn:Ht.
  destruct name as [|y name]; [reflexivity|].
  destruct (at_eol tail); [|reflexivity].
  apply take_class_app in Ht. destruct Ht as (-> & _ & _).
  unfold between. cbn [ahead].
  rewrite length_app.
  replace (length (y :: name) + length tail - length tail)%nat
    with (length (y :: name) + 0)%nat by lia.
  rewrite firstn_app_2, firstn_O, app_nil_r. reflexivity.
Qed.

Lemma search_parse l :
  option_map (fun caps => nth 1 (groups subreddit_regex caps) None)
             (search_from false subreddit_regex [] l)
  = option_map (fun name => Some (string_of_list_ascii name)) (parse l).
Proof.
  rewrite search_at_start.
  change (matches false subreddit_regex (Cursor [] l) [] (fun _ caps => Some caps))
    with (match matches false (Group 1 (Lit "/")) (Cursor [] l) []
                  (fun cur' caps' => matches false after_slash cur' caps'
                                       (fun _ caps => Some caps)) with
          | Some m => Some m
          | None => matches false after_slash (Cursor [] l) []
                            (fun _ caps => Some caps)
          end).
  cbn [matches ahead before lit_eq].
  unfold parse, parse_tail.
  destruct l as [|a l].
  - reflexivity.
  - destruct (Ascii.eqb_spec a "/") as [->|N].
    + rewrite !after_slash_matches.
      destruct l as [|b l]; [reflexivity|].
      destruct (Ascii.eqb_spec b "r") as [->|Nb].
      2:{ destruct b as [[] [] [] [] [] [] [] []]; try reflexivity. congruence. }
      destruct l as [|d l]; [reflexivity|].
      destruct (Ascii.eqb_spec d "/") as [->|Nd].
      2:{ destruct d as [[] [] [] [] [] [] [] []]; try reflexivity. congruence. }
      destruct (take_class name_class l) as [name tail].
      destruct name; [reflexivity|]. destruct (at_eol tail); reflexivity.
    + rewrite !after_slash_matches.
      destruct (Ascii.eqb_spec a "r") as [->|Na].
      2:{ destruct a as [[] [] [] [] [] [] [] []]; try reflexivity; congruence. }
      destruct l as [|d l]; [reflexivity|].
      destruct (Ascii.eqb_spec d "/") as [->|Nd].
      2:{ destruct d as [[] [] [] [] [] [] [] []]; try reflexivity. congruence. }
      destruct (take_class name_class l) as [name tail].
      destruct name; [reflexivity|]. destruct (at_eol tail); reflexivity.
Qed.

Lemma check_pattern_parse c :
  check_pattern c
  = option_map string_of_list_ascii (parse (list_ascii_of_string (body c))).
Proof.
  unfold check_pattern, search.
  pose proof (search_parse (list_ascii_of_string (body c))) as H.
  destruct (search_from false subreddit_regex [] _) as [caps|];
    destruct (parse _) as [name|]; cbn in H |- *; congruence.
Qed.

Lemma at_eol_inv tail : at_eol tail = true -> tail = [] \/ tail = [newline].
Proof.
  destruct tail as [|x [|y t]]; cbn; auto; [|discriminate].
  destruct (Ascii.eqb_spec x newline) as [->|]; [auto|discriminate].
Qed.

Lemma parse_shape l name :
  parse l = Some name <->
  name <> [] /\ Forall (fun c => in_class name_class c = true) name /\
  exists pre suf, (pre = [] \/ pre = ["/"%char]) /\
                  (suf = [] \/ suf = [newline]) /\
                  l = pre ++ "r"%char :: "/"%char :: name ++ suf.
Proof.
  split.
  - unfold parse. intros H.
    assert (G : forall l', parse_tail l' = Some name ->
        name <> [] /\ Forall (fun c => in_class name_class c = true) name /\
        exists suf, (suf = [] \/ suf = [newline]) /\
                    l' = "r"%char :: "/"%char :: name ++ suf).
    { unfold parse_tail. intros l' H'. destruct l' as [|a [|b rest]]; try discriminate.
      - destruct a as [[] [] [] [] [] [] [] []]; discriminate.
      - destruct (Ascii.eqb_spec a "r") as [->|N].
        2:{ destruct a as [[] [] [] [] [] [] [] []]; try discriminate; congruence. }
        destruct (Ascii.eqb_spec b "/") as [->|N].
        2:{ destruct b as [[] [] [] [] [] [] [] []]; try discriminate; congruence. }
        destruct (take_class name_class rest) as [n tail] eqn:Ht.
        destruct n as [|y n]; [discriminate|].
        destruct (at_eol tail) eqn:He; [|discriminate].
        injection H' as <-.
        apply take_class_app in Ht. destruct Ht as (-> & Hn & _).
        split; [discriminate|]. split; [assumption|].
        exists tail. split; [apply at_eol_inv; assumption | reflexivity]. }
    destruct l as [|a l0]; [discriminate H|].
    destruct (Ascii.eqb_spec a "/") as [->|N].
    + apply G in H. destruct H as (Hne & Hall & suf & Hs & ->).
      repeat split; try assumption. exists ["/"%char], suf. auto.
    + assert (E : match a with "/"%char => l0 | _ => a :: l0 end = a :: l0).
      { destruct a as [[] [] [] [] [] [] [] []]; try reflexivity; congruence. }
      rewrite E in H.
      apply G in H. destruct H as (Hne & Hall & suf & Hs & H).
      repeat split; try assumption. exists [], suf. auto.
  - intros (Hne & Hall & pre & suf & Hp & Hs & ->).
    assert (T : take_class name_class (name ++ suf) = (name, suf)).
    { apply take_class_complete; [assumption|].
      destruct Hs as [->| ->]; [exact I | reflexivity]. }
    assert (E : at_eol suf = true) by (destruct Hs as [->| ->]; reflexivity).
    destruct Hp as [->| ->]; unfold parse, parse_tail; cbn [app]; rewrite T, E;
      destruct name; congruence.
Qed.

Lemma list_ascii_of_string_app (s t : string) :
  list_ascii_of_string (s ++ t)%string
  = list_ascii_of_string s ++ list_ascii_of_string t.
Proof. induction s as [|a s IH]; simpl; [reflexivity | now rewrite IH]. Qed.

(** C1 (as amended): [check_pattern] returns [name] exactly when the
    body, taken as it is and not trimmed, is [r/name] or [/r/name],
    optionally followed by one final line feed, with [name] one or more
    ASCII letters, digits, hyphens or underscores; every other body
    gives no match. *)
Theorem check_pattern_shape (c : comment) (name : string) :
  check_pattern c = Some name <->
  valid_name name /\
  exists pre suf : string,
    (pre = "" \/ pre = "/") /\ (suf = "" \/ suf = line_feed) /\
    body c = (pre ++ "r/" ++ name ++ suf)%string.
Proof.
  rewrite check_pattern_parse. split.
  - destruct (parse _) as [n|] eqn:Hp; [|discriminate].
    cbn [option_map]. intros [= <-].
    apply parse_shape in Hp. destruct Hp as (Hne & Hall & pre & suf & Hpre & Hsuf & Hb).
    split.
    + split.
      * intros E. apply Hne.
        rewrite <- (list_ascii_of_string_of_list_ascii n), E. reflexivity.
      * rewrite list_ascii_of_string_of_list_ascii.
        eapply List.Forall_impl; [|exact Hall].
        intros a Ha. cbv beta in Ha. rewrite <- in_class_allowed. exact Ha.
    + exists (string_of_list_ascii pre), (string_of_list_ascii suf).
      split; [destruct Hpre as [->| ->]; auto|].
      split; [destruct Hsuf as [->| ->]; auto|].
      rewrite <- (string_of_list_ascii_of_string (body c)), Hb.
      rewrite <- (string_of_list_ascii_of_string (_ ++ _)%string).
      f_equal. rewrite !list_ascii_of_string_app.
      rewrite !list_ascii_of_string_of_list_ascii. reflexivity.
  - intros ((Hne & Hall) & pre & suf & Hpre & Hsuf & Hb).
    assert (P : parse (list_ascii_of_string (body c))
                = Some (list_ascii_of_string name)).
    { apply parse_shape. split.
      - intros E. apply Hne.
        rewrite <- (string_of_list_ascii_of_string name), E. reflexivity.
      - split.
        + eapply List.Forall_impl; [|exact Hall].
          intros a Ha. cbv beta in Ha. rewrite in_class_allowed. exact Ha.
        + exists (list_ascii_of_string pre), (list_ascii_of_string suf).
          split; [destruct Hpre as [->| ->]; auto|].
          split; [destruct Hsuf as [->| ->]; auto|].
          rewrite Hb, !list_ascii_of_string_app. reflexivity. }
    rewrite P. cbn [option_map]. now rewrite string_of_list_ascii_of_string.
Qed.

(** C1 as the specification words it fails twice over: the body is not
    trimmed before matching, and a final line feed is let through. *)
Lemma check_pattern_exact_shape_fails :
  ~ (forall c name, check_pattern c = Some name <-> exact_shape (body c) name)
  /\ ~ (forall c name,
          check_pattern c = Some name <-> exact_shape (strip (body c)) name).
Proof.
  split; intros H.
  - pose (c := Comment "c1" "/r/pics/comments/1/_/c1" ("r/cats" ++ line_feed)
                       "t3_1" "t3_1" None "pics" "A cat" "http://i.example/cat.png" 5).
    destruct (proj1 (H c "cats") eq_refl) as (_ & [E|E]); discriminate E.
  - pose (c := Comment "c1" "/r/pics/comments/1/_/c1" " r/cats"
                       "t3_1" "t3_1" None "pics" "A cat" "http://i.example/cat.png" 5).
    assert (S : exact_shape (strip (body c)) "cats").
    { split; [split; [discriminate | repeat constructor] | left; reflexivity]. }
    apply (H c "cats") in S. discriminate S.
Qed.
End CheckPattern.

(** * Phase 1: the search client and the handler *)

Section Phase1Facts.
Import Py Phase1 Pipeline.

Variable SUB_BLACKLIST : list string.
Variables SAME_SUBREDDIT_BOT_NAME SUB_DOESNT_EXIST_BOT_NAME : string.
Variable get_translated_string : string -> string -> string.
Variable format : string -> list (string * string) -> string.
Variable json_loads : string -> option json.
Variable reddit_search : string -> string -> exn + list submission.
Variable get_reposts_in_sub : comment -> string -> list submission.

Local Abbreviation gpwsc := (get_posts_with_same_content json_loads reddit_search
                                               get_reposts_in_sub).
Local Abbreviation handle := (handle_incoming_comment SUB_BLACKLIST
                      SAME_SUBREDDIT_BOT_NAME SUB_DOESNT_EXIST_BOT_NAME
                      get_translated_string format json_loads reddit_search
                      get_reposts_in_sub).
Local Abbreviation after_search :=
  (Pipeline.after_search SUB_DOESNT_EXIST_BOT_NAME get_translated_string format).

Ltac case_msg :=
  match goal with
  | |- context [msg_eq ?a ?s] => destruct (msg_eq a s) eqn:?
  end.

(** The search client only asks: its trace holds no side effect, and
    it is the search, followed at most by the repost detector. *)
Lemma gpwsc_trace c subreddit :
  trace (gpwsc c subreddit) = [Search subreddit (query_of c)] \/
  trace (gpwsc c subreddit)
  = [Search subreddit (query_of c); GetRepostsInSub c subreddit].
Proof.
  unfold get_posts_with_same_content, query_of.
  destruct (reddit_search _ _) as [e|subs].
  - destruct (is_Exception e); [|left; reflexivity]. cbn [negb].
    destruct e as [k [|a l] resp orig]; [left; reflexivity|].
    cbn -[String.append msg_eq json_subscript].
    repeat (case_msg; cbn -[String.append msg_eq json_subscript]; auto).
    all: destruct resp as [text|]; cbn -[String.append json_subscript]; auto.
    all: destruct (String.eqb text ""); cbn -[String.append json_subscript]; auto.
    all: destruct (json_loads text) as [obj|]; cbn -[String.append json_subscript]; auto.
    all: destruct (json_subscript obj "reason") as [e'|v];
      cbn -[String.append]; auto.
    all: destruct (json_eq_str v "banned"); auto.
  - destruct subs as [|s subs]; cbn -[String.append].
    + destruct (get_reposts_in_sub c subreddit); auto.
    + auto.
Qed.

Lemma gpwsc_no_side_effect c subreddit :
  side_effects (trace (gpwsc c subreddit)) = [].
Proof. destruct (gpwsc_trace c subreddit) as [-> | ->]; reflexivity. Qed.

(** A result that says posts were found holds at least one. *)
Lemma gpwsc_found_nonempty c subreddit r :
  outcome (gpwsc c subreddit) = inr r -> posts_found r = true ->
  posts r <> [].
Proof.
  unfold get_posts_with_same_content.
  destruct (reddit_search _ _) as [e|subs].
  - destruct (is_Exception e); [|discriminate]. cbn [negb].
    destruct e as [k [|a l] resp orig]; [discriminate|].
    cbn -[String.append msg_eq json_subscript].
    repeat (case_msg; cbn -[String.append msg_eq json_subscript]).
    all: try (intros [= <-]; discriminate).
    all: try discriminate.
    all: destruct resp as [text|]; cbn -[String.append json_subscript];
      try discriminate.
    all: destruct (String.eqb text ""); cbn -[String.append json_subscript];
      try (intros [= <-]; discriminate).
    all: destruct (json_loads text) as [obj|]; cbn -[String.append json_subscript];
      try (intros [= <-]; discriminate).
    all: destruct (json_subscript obj "reason") as [e'|v];
      cbn -[String.append]; try discriminate.
    all: destruct (json_eq_str v "banned"); intros [= <-]; discriminate.
  - destruct subs as [|s subs]; cbn -[String.append].
    + destruct (get_reposts_in_sub c subreddit); cbn; intros [= <-]; discriminate.
    + intros [= <-]. discriminate.
Qed.

Lemma handle_reaches_search c target t r :
  reaches_search SUB_BLACKLIST c target ->
  gpwsc c target = (t, inr r) ->
  handle c = (t ++ after_search c target r, inr tt).
Proof.
  intros (Hp & Hl & Hm & Ht & Hb1 & Hb2 & Hs) Hg.
  assert (Hne : posts_found r = true -> posts r <> []).
  { apply (gpwsc_found_nonempty c target). now rewrite Hg. }
  unfold handle_incoming_comment, Pipeline.after_search, same_content_reply, nonexistent_reply.
  rewrite Hp, Hl, Hm, Ht, Hb1, Hb2, Hs. cbn [orb].
  rewrite Hg. cbn [bind].
  destruct (posts_found r).
  - destruct (posts r) as [|p ps]; [now destruct Hne|]. reflexivity.
  - destruct (unable_to_search r && _); [reflexivity|].
    destruct (is_top_level_comment c); cbn; [reflexivity|].
    now rewrite app_nil_r.
Qed.

Lemma handle_search_raises c target t e :
  reaches_search SUB_BLACKLIST c target ->
  gpwsc c target = (t, inl e) ->
  handle c = (t, inl e).
Proof.
  intros (Hp & Hl & Hm & Ht & Hb1 & Hb2 & Hs) Hg.
  unfold handle_incoming_comment.
  rewrite Hp, Hl, Hm, Ht, Hb1, Hb2, Hs. cbn [orb].
  rewrite Hg. reflexivity.
Qed.

(** Every run of the handler is of one of four kinds. *)
Lemma handle_cases c :
  handle c = ([], inr tt) \/
  (exists target,
      handle c = ([Reply (Some SAME_SUBREDDIT_BOT_NAME) (id_ c)
                     (get_translated_string "THATS_WHERE_WE_ARE" target)],
                  inr tt)) \/
  (exists target t e,
      reaches_search SUB_BLACKLIST c target /\
      gpwsc c target = (t, inl e) /\ handle c = (t, inl e)) \/
  (exists target t r,
      reaches_search SUB_BLACKLIST c target /\
      gpwsc c target = (t, inr r) /\
      handle c = (t ++ after_search c target r, inr tt)).
Proof.
  destruct (check_pattern c) as [target|] eqn:Hp.
  2:{ left. unfold handle_incoming_comment. now rewrite Hp. }
  destruct (SUBREDDIT_NAME_LENGTH_LIMIT <? String.length target)%nat eqn:Hl.
  { left. unfold handle_incoming_comment. now rewrite Hp, Hl. }
  destruct (is_mod_post c) eqn:Hm.
  { left. unfold handle_incoming_comment. now rewrite Hp, Hl, Hm. }
  destruct (title_contains_prohibited_phrases c) eqn:Ht.
  { left. unfold handle_incoming_comment. now rewrite Hp, Hl, Hm, Ht. }
  destruct (str_in (lower target) SUB_BLACKLIST) eqn:Hb1.
  { left. unfold handle_incoming_comment. now rewrite Hp, Hl, Hm, Ht, Hb1. }
  destruct (str_in (lower (subreddit_display_name c)) SUB_BLACKLIST) eqn:Hb2.
  { left. unfold handle_incoming_comment. now rewrite Hp, Hl, Hm, Ht, Hb1, Hb2. }
  destruct (String.eqb (lower target) (lower (subreddit_display_name c))) eqn:Hs.
  { right; left. exists target. unfold handle_incoming_comment.
    now rewrite Hp, Hl, Hm, Ht, Hb1, Hb2, Hs. }
  assert (R : reaches_search SUB_BLACKLIST c target) by (repeat split; assumption).
  right; right.
  destruct (gpwsc c target) as [t [e|r]] eqn:Hg.
  - left. exists target, t, e. repeat split; try assumption.
    now apply handle_search_raises with (target := target).
  - right. exists target, t, r. repeat split; try assumption.
    now apply handle_reaches_search.
Qed.

(** How the search client classifies a failure whose message is [msg]. *)
Lemma failure_classification c subreddit e msg rest :
  reddit_search subreddit (query_of c) = inl e ->
  is_Exception e = true ->
  args e = AStr msg :: rest ->
  let searched := [Search subreddit (query_of c)] in
  (msg = "Redirect to /submit" ->
   gpwsc c subreddit = (searched, inr (MkResult false [] false None))) /\
  (msg = "received 403 HTTP response" ->
   gpwsc c subreddit
   = (searched, inr (MkResult false [] true (Some "SUBREDDIT_IS_PRIVATE")))) /\
  (msg = "Redirect to /subreddits/search" \/ msg = "received 404 HTTP response" ->
   forall text, response e = Some text ->
     (text = "" \/ json_loads text = None ->
      gpwsc c subreddit
      = (searched, inr (MkResult false [] true (Some "SUBREDDIT_DOES_NOT_EXIST")))) /\
     (forall obj v, text <> "" -> json_loads text = Some obj ->
        json_subscript obj "reason" = inr v ->
        gpwsc c subreddit
        = (searched,
           inr (MkResult false [] true
                  (Some (if json_eq_str v "banned"
                         then "SUBREDDIT_IS_BANNED"
                         else "SUBREDDIT_DOES_NOT_EXIST")))))) /\
  (msg <> "Redirect to /submit" -> msg <> "Redirect to /subreddits/search" ->
   msg <> "received 404 HTTP response" -> msg <> "received 403 HTTP response" ->
   gpwsc c subreddit = (searched, inl e)).
Proof.
  intros Hs Hx Ha searched. unfold get_posts_with_same_content.
  fold (query_of c). rewrite Hs, Hx. unfold args0. rewrite Ha.
  cbn [bind emit ret app msg_eq].
  split; [intros ->; reflexivity|].
  split; [intros ->; reflexivity|].
  split.
  - intros Hm text Hr. split.
    + intros Ht.
      destruct Hm as [->| ->]; cbn [String.eqb Ascii.eqb Bool.eqb orb andb];
        unfold response_text; rewrite Hr; cbn [bind ret app];
        (destruct Ht as [->|Hj]; [reflexivity|]);
        (destruct (String.eqb text ""); [reflexivity|]); cbn [negb];
        rewrite Hj; reflexivity.
    + intros obj v Hne Hj Hv.
      assert (E : String.eqb text "" = false) by now apply String.eqb_neq.
      destruct Hm as [->| ->]; cbn [String.eqb Ascii.eqb Bool.eqb orb andb];
        unfold response_text; rewrite Hr; cbn [bind ret app]; rewrite E;
        cbn [negb]; rewrite Hj; unfold answer; rewrite Hv; cbn [bind];
        destruct (json_eq_str v "banned"); reflexivity.
  - intros N1 N2 N3 N4.
    apply String.eqb_neq in N1, N2, N3, N4.
    rewrite N1, N2, N3, N4. reflexivity.
Qed.

(** C4 (the defect): a 404 answer whose payload is a JSON object with
    no [reason] field is not classified: the handler of the failure
    itself raises [KeyError], where the claim has
    UNABLE(SUBREDDIT_DOES_NOT_EXIST). *)
Theorem not_found_payload_without_reason_raises
        (c : comment) (subreddit : string) (e : exn) (text : string)
        (fields : list (string * json)) (rest : list arg) :
  reddit_search subreddit (query_of c) = inl e ->
  is_Exception e = true ->
  args e = AStr "received 404 HTTP response" :: rest ->
  response e = Some text -> text <> "" ->
  json_loads text = Some (JObj fields) ->
  assoc "reason" fields = None ->
  gpwsc c subreddit
  = ([Search subreddit (query_of c)], inl (simple_exn KeyError "reason")).
Proof.
  intros Hs Hx Ha Hr Hne Hj Hf. unfold get_posts_with_same_content.
  fold (query_of c). rewrite Hs, Hx. unfold args0. rewrite Ha.
  assert (E : String.eqb text "" = false) by now apply String.eqb_neq.
  cbn [bind emit ret app msg_eq String.eqb Ascii.eqb Bool.eqb orb andb].
  unfold response_text. rewrite Hr. cbn [bind ret app]. rewrite E. cbn [negb].
  rewrite Hj. unfold answer, json_subscript. rewrite Hf. reflexivity.
Qed.

(** C5 (the defect): on the redirect to the submission page the search
    client returns NOT_FOUND at once; the repost detector is not asked,
    although it has posts to report. *)
Theorem redirect_to_submit_skips_repost_detector
        (c : comment) (subreddit : string) (e : exn) (rest : list arg) :
  reddit_search subreddit (query_of c) = inl e ->
  is_Exception e = true ->
  args e = AStr "Redirect to /submit" :: rest ->
  get_reposts_in_sub c subreddit <> [] ->
  gpwsc c subreddit
  = ([Search subreddit (query_of c)], inr (MkResult false [] false None)) /\
  ~ In (GetRepostsInSub c subreddit) (trace (gpwsc c subreddit)) /\
  (forall r, outcome (gpwsc c subreddit) = inr r -> outcome_of r = NOT_FOUND).
Proof.
  intros Hs Hx Ha _.
  destruct (failure_classification c subreddit e _ rest Hs Hx Ha) as (H & _).
  specialize (H eq_refl). rewrite H. split; [reflexivity|]. split.
  - cbn. intros [E|[]]. discriminate E.
  - cbn. intros r [= <-]. reflexivity.
Qed.

(** The sibling path: an empty list of results does ask the repost
    detector, and what it reports counts as found. *)
Lemma empty_results_ask_repost_detector c subreddit :
  reddit_search subreddit (query_of c) = inr [] ->
  gpwsc c subreddit
  = ([Search subreddit (query_of c); GetRepostsInSub c subreddit],
     inr (match get_reposts_in_sub c subreddit with
          | [] => MkResult false [] false None
          | prior => MkResult true prior false None
          end)).
Proof.
  intros Hs. unfold get_posts_with_same_content. fold (query_of c).
  rewrite Hs. cbn. destruct (get_reposts_in_sub c subreddit); reflexivity.
Qed.

Lemma side_effects_app t1 t2 :
  side_effects (t1 ++ t2) = side_effects t1 ++ side_effects t2.
Proof. apply List.filter_app. Qed.

Lemma after_search_cases c target r :
  after_search c target r = [] \/
  (exists u i text, after_search c target r = [Reply u i text]) \/
  after_search c target r = [AddComment c] /\ is_top_level_comment c = true.
Proof.
  unfold Pipeline.after_search, same_content_reply, nonexistent_reply.
  destruct (posts_found r).
  - destruct (posts r); eauto 10.
  - destruct (unable_to_search r && _); [eauto 10|].
    destruct (is_top_level_comment c); auto.
Qed.

(** C7: one pass of Phase-1 over a comment posts one reply, or inserts
    one staging record, or does neither, and never both: the trace of a
    pass that posts a reply holds no insert. *)
Theorem phase1_at_most_one_side_effect (c : comment) :
  let done := side_effects (trace (handle c)) in
  (done = [] \/ (exists u i text, done = [Reply u i text]) \/ done = [AddComment c])
  /\ existsb is_reply (trace (handle c)) && existsb is_insert (trace (handle c))
     = false.
Proof.
  cbv zeta.
  destruct (handle_cases c) as [H|[(target & H)|[(target & t & e & _ & Hg & H)
                                               |(target & t & r & _ & Hg & H)]]];
    rewrite H; cbn [trace fst].
  - split; [left; reflexivity | reflexivity].
  - split; [right; left; eauto | reflexivity].
  - pose proof (gpwsc_no_side_effect c target) as N.
    pose proof (gpwsc_trace c target) as T.
    rewrite Hg in N, T. cbn [trace fst] in N, T.
    split; [left; exact N|]. destruct T as [-> | ->]; reflexivity.
  - pose proof (gpwsc_no_side_effect c target) as N.
    pose proof (gpwsc_trace c target) as T.
    rewrite Hg in N, T. cbn [trace fst] in N, T.
    rewrite side_effects_app, N. cbn [app].
    destruct (after_search_cases c target r) as [E|[(u & i & text & E)|(E & _)]];
      rewrite E; cbn [side_effects List.filter is_side_effect].
    + split; [left; reflexivity|].
      rewrite app_nil_r. destruct T as [-> | ->]; reflexivity.
    + split; [right; left; eauto|].
      destruct T as [-> | ->]; reflexivity.
    + split; [right; right; reflexivity|].
      destruct T as [-> | ->]; reflexivity.
Qed.

(** C8: a staging record is only ever inserted for the comment at hand
    and only when it is top-level; a comment that reaches the search
    and gets NOT_FOUND is staged when top-level and dropped, with no
    side effect at all, when it is not. *)
Theorem only_top_level_comments_are_staged
        (c : comment) (target : string) (t : list call) (r : Result) :
  reaches_search SUB_BLACKLIST c target ->
  gpwsc c target = (t, inr r) ->
  outcome_of r = NOT_FOUND ->
  (is_top_level_comment c = false ->
   handle c = (t, inr tt) /\ side_effects (trace (handle c)) = []) /\
  (is_top_level_comment c = true -> handle c = (t ++ [AddComment c], inr tt)) /\
  (forall c' x, In (AddComment x) (trace (handle c')) ->
                x = c' /\ is_top_level_comment c' = true).
Proof.
  intros R Hg Ho.
  assert (A : after_search c target r
              = if is_top_level_comment c then [AddComment c] else []).
  { unfold Pipeline.after_search. unfold outcome_of in Ho.
    destruct (posts_found r); [discriminate|].
    destruct (unable_to_search r); [discriminate|]. reflexivity. }
  pose proof (handle_reaches_search c target t r R Hg) as H.
  rewrite A in H.
  split; [|split].
  - intros Ht. rewrite Ht, app_nil_r in H. rewrite H. split; [reflexivity|].
    pose proof (gpwsc_no_side_effect c target) as N.
    rewrite Hg in N. exact N.
  - intros Ht. rewrite Ht in H. exact H.
  - clear. intros c' x Hin.
    destruct (handle_cases c') as [H|[(target & H)|[(target & t & e & _ & Hg & H)
                                                 |(target & t & r & _ & Hg & H)]]];
      rewrite H in Hin; cbn [trace fst] in Hin.
    + destruct Hin.
    + destruct Hin as [E|[]]. discriminate E.
    + pose proof (gpwsc_trace c' target) as T. rewrite Hg in T. cbn in T.
      destruct T as [-> | ->]; cbn in Hin; intuition discriminate.
    + pose proof (gpwsc_trace c' target) as T. rewrite Hg in T.
      cbn [trace fst] in T.
      apply in_app_or in Hin. destruct Hin as [Hin|Hin].
      * destruct T as [-> | ->]; cbn in Hin; intuition discriminate.
      * destruct (after_search_cases c' target r)
          as [E|[(u & i & text & E)|(E & Ht)]]; rewrite E in Hin.
        -- destruct Hin.
        -- destruct Hin as [E'|[]]. discriminate E'.
        -- destruct Hin as [E'|[]]. injection E' as <-. auto.
Qed.

(** C3 (as amended): when the search of a comment that reached it ends
    UNABLE with SUBREDDIT_DOES_NOT_EXIST, the nonexistent-target reply
    is posted and nothing is staged; with SUBREDDIT_IS_BANNED no reply
    is posted and the comment is staged exactly when it is top-level. *)
Theorem unable_search_reply_or_stage
        (c : comment) (target : string) (t : list call) (r : Result) :
  reaches_search SUB_BLACKLIST c target ->
  gpwsc c target = (t, inr r) ->
  (outcome_of r = UNABLE (Some "SUBREDDIT_DOES_NOT_EXIST") ->
   handle c = (t ++ [nonexistent_reply SUB_DOESNT_EXIST_BOT_NAME
                       get_translated_string format c target], inr tt) /\
   existsb is_insert (trace (handle c)) = false) /\
  (outcome_of r = UNABLE (Some "SUBREDDIT_IS_BANNED") ->
   handle c = (t ++ (if is_top_level_comment c then [AddComment c] else []),
               inr tt) /\
   existsb is_reply (trace (handle c)) = false).
Proof.
  intros R Hg.
  pose proof (handle_reaches_search c target t r R Hg) as H.
  pose proof (gpwsc_trace c target) as T. rewrite Hg in T. cbn [trace fst] in T.
  unfold outcome_of. unfold Pipeline.after_search in H.
  destruct (posts_found r); [split; discriminate|].
  destruct (unable_to_search r); [|split; discriminate].
  split; intros [= E]; rewrite E in H; cbn in H; rewrite H; (split; [reflexivity|]);
    cbn [trace fst].
  - destruct T as [-> | ->]; reflexivity.
  - destruct T as [-> | ->]; destruct (is_top_level_comment c); reflexivity.
Qed.

End Phase1Facts.

(** * Phase 2: the filters and the staging record *)

Section Phase2Facts.
Import Py Phase2 Pipeline.
Import Phase1 (call, Search, GetRepostsInSub, Reply, AddComment,
               FetchComment, SetCommentChecked, DeleteComment, submission).

Variable json_loads : string -> option json.
Variable reddit_search : string -> string -> exn + list submission.
Variable get_reposts_in_sub : Phase1.comment -> string -> list submission.
Variable builtins : gmap string value.
Variable environ : gmap string string.
Variable int : option string -> exn + Z.
Variable reddit_comment : string -> exn + Phase1.comment.

(** No builtin is called [target_subreddit]. *)
Hypothesis builtins_unbound : builtins !! "target_subreddit" = None.

Local Abbreviation gpwsc :=
  (Phase1.get_posts_with_same_content json_loads reddit_search get_reposts_in_sub).
Local Abbreviation checks :=
  (run_filters_checks json_loads reddit_search get_reposts_in_sub
                      environ int reddit_comment).
Local Abbreviation run_filters :=
  (Phase2.run_filters json_loads reddit_search get_reposts_in_sub
                      builtins environ int reddit_comment).
Local Abbreviation process_comment_entry :=
  (Phase2.process_comment_entry json_loads reddit_search get_reposts_in_sub
                                builtins environ int reddit_comment).

Lemma class_Result_raises :
  class_Result builtins = ([], inl unbound_target_subreddit).
Proof.
  unfold class_Result, load_name.
  rewrite !lookup_insert_ne by discriminate. rewrite lookup_empty.
  change (module_globals !! "target_subreddit") with (@None value).
  rewrite builtins_unbound. reflexivity.
Qed.

Lemma run_filters_raises (comment_entry : gmap string string) :
  run_filters comment_entry = ([], inl unbound_target_subreddit).
Proof. unfold Phase2.run_filters. rewrite class_Result_raises. reflexivity. Qed.

Lemma process_comment_entry_raises (comment_entry : gmap string string) :
  process_comment_entry comment_entry = ([], inl unbound_target_subreddit).
Proof.
  unfold Phase2.process_comment_entry. rewrite run_filters_raises. reflexivity.
Qed.

(** [result != False] holds whatever the instance. *)
Lemma instance_ne_False (oid : nat) (r : Result) :
  py_ne (Instance oid r) (PyBool false) = true.
Proof. reflexivity. Qed.

Lemma process_result_marks (oid : nat) (r : Result)
      (comment_entry : gmap string string) :
  process_result oid r comment_entry
  = ([SetCommentChecked comment_entry], inr tt).
Proof. reflexivity. Qed.

(** What the statements after the class statement decide, check by
    check, for a record whose permalink is known. *)
Lemma checks_verdicts (class_ns : gmap string value)
      (comment_entry : gmap string string) (permalink : string) :
  comment_entry !! "permalink" = Some permalink ->
  let url := get_full_comment_from_reddit permalink in
  (forall e, reddit_comment url = inl e -> cls e = ClientException ->
     exists r, checks class_ns comment_entry = ([FetchComment url], inr r) /\
               passes_filter r = false /\
               reason r = Some "COMMENT_UNAVAILABLE") /\
  (forall c threshold,
     reddit_comment url = inr c ->
     int (environ !! "COMMENT_SCORE_THRESHOLD") = inr threshold ->
     ((Phase1.score c < threshold)%Z ->
      exists r, checks class_ns comment_entry = ([FetchComment url], inr r) /\
                passes_filter r = false /\
                reason r = Some "COMMENT_SCORE_TOO_LOW") /\
     ((threshold <= Phase1.score c)%Z ->
      (Phase1.check_pattern c = None ->
       exists r, checks class_ns comment_entry = ([FetchComment url], inr r) /\
                 passes_filter r = false /\
                 reason r = Some "TARGET_SUBREDDIT_NOT_FOUND") /\
      (forall name t g,
         Phase1.check_pattern c = Some name -> gpwsc c name = (t, inr g) ->
         exists r,
           checks class_ns comment_entry = (FetchComment url :: t, inr r) /\
           match outcome_of g with
           | FOUND _ =>
               passes_filter r = false /\
               reason r = Some "POST_WITH_SAME_CONTENT_FOUND"
           | UNABLE why =>
               passes_filter r = false /\
               reason r
               = Some ("UNABLE_TO_SEARCH_TARGET_SUBREDDIT_BECAUSE__"
                         ++ match why with Some w => w | None => "None" end)%string
           | NOT_FOUND => passes_filter r = true /\ reason r = None
           end))).
Proof.
  intros Hp url. unfold run_filters_checks, subscript. rewrite Hp.
  unfold check_comment_availability. cbn [bind ret app]. fold url.
  split.
  - intros e He Hc. rewrite He, Hc. cbn. eauto.
  - intros c threshold Hc Hi. rewrite Hc. cbn [bind emit ret answer app negb].
    rewrite Hi.
    split.
    + intros Hlt. apply Z.ltb_lt in Hlt. rewrite Hlt. eauto.
    + intros Hge. apply Z.ltb_ge in Hge. rewrite Hge. split.
      * intros ->. eauto.
      * intros name t g -> Hg. rewrite Hg. unfold outcome_of.
        assert (Hne : Phase1.posts_found g = true -> Phase1.posts g <> []).
        { apply (gpwsc_found_nonempty json_loads reddit_search
                   get_reposts_in_sub c name). now rewrite Hg. }
        cbn [bind].
        destruct (Phase1.posts_found g).
        -- destruct (Phase1.posts g) as [|p ps]; [now destruct Hne|].
           cbn. rewrite app_nil_r. eauto.
        -- destruct (Phase1.unable_to_search g); cbn; rewrite app_nil_r; eauto.
Qed.

(** C6 (the defect): [run_filters] reports no reason and no verdict for
    any record: its class statement raises [NameError] before the first
    check, and before any call to the outside. *)
Theorem run_filters_reports_nothing (comment_entry : gmap string string) :
  run_filters comment_entry = ([], inl unbound_target_subreddit) /\
  forall r, outcome (run_filters comment_entry) <> inr r.
Proof.
  rewrite run_filters_raises. split; [reflexivity | discriminate].
Qed.

(** C2 (the defect): for a staged comment that has become unavailable
    the checks decide COMMENT_UNAVAILABLE, yet the record is not
    deleted: [process_comment_entry] stops on the [NameError] of
    [run_filters], and with that verdict in hand its test
    [result != False] would mark the record checked. *)
Theorem unavailable_comment_is_not_deleted
        (class_ns : gmap string value) (comment_entry : gmap string string)
        (permalink : string) (e : exn) :
  comment_entry !! "permalink" = Some permalink ->
  reddit_comment (get_full_comment_from_reddit permalink) = inl e ->
  cls e = ClientException ->
  (exists r,
      outcome (checks class_ns comment_entry) = inr r /\
      passes_filter r = false /\ reason r = Some "COMMENT_UNAVAILABLE" /\
      process_result 0 r comment_entry
      = ([SetCommentChecked comment_entry], inr tt)) /\
  process_comment_entry comment_entry = ([], inl unbound_target_subreddit) /\
  existsb is_delete (trace (process_comment_entry comment_entry)) = false.
Proof.
  intros Hp He Hc.
  destruct (checks_verdicts class_ns comment_entry permalink Hp) as (H & _).
  destruct (H e He Hc) as (r & Hr & Hpass & Hreason).
  split; [|split].
  - exists r. rewrite Hr. auto using process_result_marks.
  - apply process_comment_entry_raises.
  - rewrite process_comment_entry_raises. reflexivity.
Qed.

(** C10: [process_comment_entry] never asks the staging store to
    delete.  [run_filters] raises [NameError] from its class statement
    with no call made, so [process_comment_entry] raises too; and for
    any instance of [Result] whatever, [result != False] is true and
    the record is marked checked. *)
Theorem process_comment_entry_never_deletes
        (comment_entry : gmap string string) :
  run_filters comment_entry = ([], inl unbound_target_subreddit) /\
  process_comment_entry comment_entry = ([], inl unbound_target_subreddit) /\
  existsb is_delete (trace (process_comment_entry comment_entry)) = false /\
  (forall oid r, py_ne (Instance oid r) (PyBool false) = true) /\
  (forall oid r,
      existsb is_delete (trace (process_result oid r comment_entry)) = false).
Proof.
  split; [apply run_filters_raises|].
  split; [apply process_comment_entry_raises|].
  split; [rewrite process_comment_entry_raises; reflexivity|].
  split; [apply instance_ne_False|].
  intros oid r. rewrite process_result_marks. reflexivity.
Qed.

End Phase2Facts.

(** * The stream consumer *)

Section MainFacts.
Import Py Main Faults.

Variable LISTEN_ONLY : bool.

Lemma for_comments_production (script : list stream_step) :
  forallb survivable script = true ->
  exists t s rest,
    for_comments false script = (t, s, rest) /\
    forallb survivable rest = true /\
    (s = Waiting \/
     ((s = Returned \/ exists e, s = Raised e /\ recoverable e = true) /\
      (length rest < length script)%nat)).
Proof.
  induction script as [|step script IH]; intros Hs.
  - exists [], Waiting, []. cbn. auto.
  - cbn [forallb] in Hs. apply andb_true_iff in Hs. destruct Hs as [Hs Hrest].
    destruct (IH Hrest) as (t & s & rest & E & Fr & Hcase).
    assert (L : s = Waiting \/
                ((s = Returned \/ exists e, s = Raised e /\ recoverable e = true) /\
                 (length rest < length (step :: script))%nat)).
    { destruct Hcase as [->|[? ?]];
        [left; reflexivity | right; split; cbn; [assumption|lia]]. }
    destruct step as [c handling pending|e|].
    + cbn [survivable] in Hs. apply andb_true_iff in Hs. destruct Hs as (Hh & Hp).
      cbn [for_comments].
      destruct handling as [e|].
      * cbn in Hh. rewrite Hh, E. eauto 10.
      * destruct pending as [e|].
        -- cbn in Hp. rewrite Hp, E. eauto 10.
        -- rewrite E. eauto 10.
    + cbn in Hs. exists [], (Raised e), script. cbn [for_comments].
      repeat split; try assumption. right. split; [eauto | cbn; lia].
    + exists [], Returned, script. cbn [for_comments].
      repeat split; try assumption. right. split; [auto | cbn; lia].
Qed.

Lemma main_loop_production (fuel : nat) :
  forall script,
    forallb survivable script = true -> (length script < fuel)%nat ->
    snd (main_loop false fuel script) = Waiting.
Proof.
  induction fuel as [|fuel IH]; intros script Hs Hf; [inversion Hf|].
  destruct (for_comments_production script Hs)
    as (t & s & rest & E & Fr & Hcase).
  cbn [main_loop]. unfold listen_to_comment_stream. rewrite E.
  destruct Hcase as [->|[[->|(e & -> & He)] Hl]].
  - reflexivity.
  - specialize (IH rest Fr ltac:(lia)).
    destruct (main_loop false fuel rest) as [t' s']. exact IH.
  - specialize (IH rest Fr ltac:(lia)).
    unfold recoverable in He.
    destruct (is_network_fault e).
    + destruct (main_loop false fuel rest) as [t' s']. exact IH.
    + cbn [orb] in He. apply andb_true_iff in He. destruct He as [-> ->].
      destruct (main_loop false fuel rest) as [t' s']. exact IH.
Qed.

Lemma recoverable_resumes (fuel : nat) (e : exn) (rest : list stream_step) :
  recoverable e = true ->
  main_loop false (S fuel) (StreamRaise e :: rest)
  = (fresh_stream ++ cool_down e ++ fst (main_loop false fuel rest),
     snd (main_loop false fuel rest)).
Proof.
  intros He. cbn [main_loop]. unfold listen_to_comment_stream.
  cbn [for_comments]. unfold recoverable in He.
  destruct (is_network_fault e).
  - destruct (main_loop false fuel rest) as [t' s']. reflexivity.
  - cbn [orb] in He. apply andb_true_iff in He. destruct He as [-> ->].
    destruct (main_loop false fuel rest) as [t' s']. reflexivity.
Qed.

Lemma main_loop_opens_stream (D : bool) (fuel : nat) (script : list stream_step) :
  exists t, fst (main_loop D (S fuel) script) = fresh_stream ++ t.
Proof.
  cbn [main_loop]. unfold listen_to_comment_stream.
  destruct (for_comments D script) as [[t s] rest].
  destruct s as [|e| |].
  - destruct (main_loop D fuel rest) as [t' s']. cbn. eauto.
  - destruct (is_network_fault e).
    + destruct D; [cbn; eauto|].
      destruct (main_loop false fuel rest) as [t' s']. cbn. eauto.
    + destruct (exc_class_eqb (cls e) RequestException); [|cbn; eauto].
      destruct (is_max_retry_or_read_timeout_error e); [|cbn; eauto].
      destruct (main_loop D fuel rest) as [t' s']. cbn. eauto.
  - cbn. eauto.
  - cbn. eauto.
Qed.

(** A fault of the stream that is not one of the listed ones ends the
    round and the loop. *)
Lemma unrecoverable_ends_loop (fuel : nat) (e : exn) (rest : list stream_step) :
  recoverable e = false ->
  main_loop false (S fuel) (StreamRaise e :: rest) = (fresh_stream, Raised e).
Proof.
  intros He. cbn [main_loop]. unfold listen_to_comment_stream.
  cbn [for_comments]. unfold recoverable in He.
  apply orb_false_iff in He. destruct He as [-> He].
  destruct (exc_class_eqb (cls e) RequestException); [|reflexivity].
  cbn [andb] in He. rewrite He. reflexivity.
Qed.

(** A round in production over a survivable run of steps followed by a fault
    [e] of the stream: the round ends on [e], or earlier, in a way the
    loop recovers from, with [e] still ahead. *)
Lemma for_comments_reaches_fault (e : exn) (rest : list stream_step) :
  forall seen,
    forallb survivable seen = true ->
    exists t s rest',
      for_comments false (seen ++ StreamRaise e :: rest) = (t, s, rest') /\
      (s = Raised e /\ rest' = rest \/
       (s = Returned \/ exists e', s = Raised e' /\ recoverable e' = true) /\
       exists seen',
         rest' = seen' ++ StreamRaise e :: rest /\
         forallb survivable seen' = true /\
         (length seen' < length seen)%nat).
Proof.
  induction seen as [|step seen IH]; intros Hs.
  - exists [], (Raised e), rest. cbn. auto.
  - cbn [forallb] in Hs. apply andb_true_iff in Hs. destruct Hs as [Hstep Hs].
    destruct (IH Hs) as (t & s & rest' & E & Hcase).
    assert (L : s = Raised e /\ rest' = rest \/
                (s = Returned \/ exists e', s = Raised e' /\ recoverable e' = true) /\
                exists seen',
                  rest' = seen' ++ StreamRaise e :: rest /\
                  forallb survivable seen' = true /\
                  (length seen' < length (step :: seen))%nat).
    { destruct Hcase as [?|[? (seen' & ? & ? & ?)]]; [left; assumption|].
      right. split; [assumption|]. exists seen'. cbn [length].
      repeat split; try assumption. lia. }
    destruct step as [c handling pending|e'|]; cbn [app for_comments].
    + cbn [survivable] in Hstep. apply andb_true_iff in Hstep.
      destruct Hstep as (Hh & Hp).
      destruct handling as [x|].
      * cbn in Hh. rewrite Hh, E. eauto 10.
      * destruct pending as [x|].
        -- cbn in Hp. rewrite Hp, E. eauto 10.
        -- rewrite E. eauto 10.
    + cbn in Hstep. exists [], (Raised e'), (seen ++ StreamRaise e :: rest).
      split; [reflexivity|]. right. split; [eauto|].
      exists seen. cbn [length]. repeat split; try assumption. lia.
    + exists [], Returned, (seen ++ StreamRaise e :: rest).
      split; [reflexivity|]. right. split; [auto|].
      exists seen. cbn [length]. repeat split; try assumption. lia.
Qed.

Lemma main_loop_reaches_fault (e : exn) (rest : list stream_step) (fuel : nat) :
  recoverable e = false ->
  forall seen,
    forallb survivable seen = true -> (length seen < fuel)%nat ->
    snd (main_loop false fuel (seen ++ StreamRaise e :: rest)) = Raised e.
Proof.
  intros He. induction fuel as [|fuel IH]; intros seen Hs Hf; [inversion Hf|].
  destruct (for_comments_reaches_fault e rest seen Hs)
    as (t & s & rest' & E & Hcase).
  cbn [main_loop]. unfold listen_to_comment_stream. rewrite E.
  destruct Hcase as [[-> ->]|[Hs' (seen' & -> & Hp' & Hl)]].
  - unfold recoverable in He. apply orb_false_iff in He. destruct He as [-> He].
    destruct (exc_class_eqb (cls e) RequestException); [|reflexivity].
    cbn [andb] in He. rewrite He. reflexivity.
  - specialize (IH seen' Hp' ltac:(lia)).
    destruct Hs' as [->|(e' & -> & He')].
    + destruct (main_loop false fuel (seen' ++ StreamRaise e :: rest))
        as [t' s']. exact IH.
    + unfold recoverable in He'.
      destruct (is_network_fault e').
      * destruct (main_loop false fuel (seen' ++ StreamRaise e :: rest))
          as [t' s']. exact IH.
      * cbn [orb] in He'. apply andb_true_iff in He'. destruct He' as [-> ->].
        destruct (main_loop false fuel (seen' ++ StreamRaise e :: rest))
          as [t' s']. exact IH.
Qed.

(** C9 (as amended): in production mode the loop lives through every
    script in which the stream itself raises only the listed faults and
    event handling raises only [Exception]s: it is left waiting on the
    stream, neither returned nor raised.  Each listed fault of the
    stream is logged, followed by a 30 second sleep and a fresh stream;
    an exception of the handling of one event is logged and the next
    event of the same stream is taken.  Any other fault of the stream,
    wherever it comes in such a script, ends [main] with that fault; in
    particular a request failure that wraps neither a max-retries nor a
    read-timeout fault is raised again and ends the loop. *)
Theorem production_loop_survives (script : list stream_step) :
  forallb survivable script = true ->
  snd (main false LISTEN_ONLY script) = Waiting /\
  (forall fuel e rest,
      recoverable e = true ->
      exists t,
        fst (main_loop false (S (S fuel)) (StreamRaise e :: rest))
        = fresh_stream ++ cool_down e ++ fresh_stream ++ t) /\
  (forall c e pending rest,
      is_Exception e = true ->
      for_comments false (Yield c (Some e) pending :: rest)
      = let '(t, s, rest') := for_comments false rest in
        (HandleIncomingComment c :: LogException e :: t, s, rest')) /\
  (forall c e rest,
      is_Exception e = true ->
      for_comments false (Yield c None (Some e) :: rest)
      = let '(t, s, rest') := for_comments false rest in
        (HandleIncomingComment c :: RunPending :: LogException e :: t, s, rest')) /\
  (forall e rest,
      recoverable e = false ->
      snd (main false LISTEN_ONLY (script ++ StreamRaise e :: rest)) = Raised e) /\
  (forall fuel e rest,
      cls e = RequestException ->
      is_max_retry_or_read_timeout_error e = false ->
      main_loop false (S fuel) (StreamRaise e :: rest)
      = (fresh_stream, Raised e)).
Proof.
  intros Hs. split; [|split; [|split; [|split; [|split]]]].
  - unfold main.
    pose proof (main_loop_production (S (length script)) script Hs
                  (Nat.lt_succ_diag_r _)) as H.
    destruct (main_loop false (S (length script)) script) as [t s]. exact H.
  - intros fuel e rest He. rewrite (recoverable_resumes _ _ _ He). cbn [fst].
    destruct (main_loop_opens_stream false fuel rest) as (t & ->). eauto.
  - intros c e pending rest He. cbn [for_comments]. rewrite He.
    destruct (for_comments false rest) as [[t s] rest']. reflexivity.
  - intros c e rest He. cbn [for_comments]. rewrite He.
    destruct (for_comments false rest) as [[t s] rest']. reflexivity.
  - intros e rest He. unfold main.
    assert (Hf : (length script < S (length (script ++ StreamRaise e :: rest)))%nat).
    { rewrite length_app. lia. }
    pose proof (main_loop_reaches_fault e rest _ He script Hs Hf) as H.
    destruct (main_loop false (S (length (script ++ StreamRaise e :: rest)))
                        (script ++ StreamRaise e :: rest)) as [t s].
    exact H.
  - intros fuel e rest Hc Hm. apply unrecoverable_ends_loop.
    unfold recoverable, is_network_fault. rewrite Hc, Hm. reflexivity.
Qed.

End MainFacts.

(** C9 as the specification words it fails: in production mode a
    request failure that wraps some other fault is raised again by
    [main], which ends the loop; and a listed fault, here a server
    error, that is raised while an event is handled causes no sleep and
    no fresh stream: it is logged and the event skipped. *)
Lemma production_loop_can_terminate :
  Main.main false false [Main.StreamRaise Faults.connection_reset]
  = ([Main.LogInfo "Running RedditAutoCrosspostBot" None;
      Main.ScheduleEvery 7 "minutes"
        "unwated_submission_remover.delete_unwanted_submissions";
      Main.ScheduleEvery 20 "seconds" "inbox_responder.respond_to_inbox";
      Main.ScheduleEvery 6 "minutes" "replier.respond_to_saved_comments";
      Main.OpenStream "all";
      Main.LogInfo "Listening to comment stream..." None],
     Main.Raised Faults.connection_reset)
  /\ Main.main false false
       [Main.Yield (Sample.says "r/cats" "t3_1")
          (Some (Py.simple_exn Py.ServerError "received 503 HTTP response"))
          None]
     = ([Main.LogInfo "Running RedditAutoCrosspostBot" None;
         Main.ScheduleEvery 7 "minutes"
           "unwated_submission_remover.delete_unwanted_submissions";
         Main.ScheduleEvery 20 "seconds" "inbox_responder.respond_to_inbox";
         Main.ScheduleEvery 6 "minutes" "replier.respond_to_saved_comments";
         Main.OpenStream "all";
         Main.LogInfo "Listening to comment stream..." None;
         Main.HandleIncomingComment (Sample.says "r/cats" "t3_1");
         Main.LogException
           (Py.simple_exn Py.ServerError "received 503 HTTP response")],
        Main.Waiting).
Proof. split; reflexivity. Qed.

(** * The theorems at work on the sample platform *)

Section Witnesses.
Import Py Phase1 Phase2 Pipeline Sample Main Faults.

Local Abbreviation sample_gpwsc :=
  (get_posts_with_same_content Sample.json_loads Sample.reddit_search).

Lemma check_pattern_shape_witness :
  check_pattern (says "/r/cats" "t3_1") = Some "cats".
Proof.
  apply (proj2 (check_pattern_shape (says "/r/cats" "t3_1") "cats")).
  split.
  - split; [discriminate | repeat constructor].
  - exists "/", "". repeat split; auto.
Defined.

Lemma unavailable_comment_is_not_deleted_witness :
  deleted_entry !! "permalink" = Some "/r/pics/comments/1/a_cat/c2/" /\
  Phase2.process_comment_entry Sample.json_loads Sample.reddit_search no_reposts
    Sample.builtins Sample.environ Sample.int Sample.reddit_comment deleted_entry
  = ([], inl unbound_target_subreddit).
Proof.
  split; [reflexivity|].
  apply (unavailable_comment_is_not_deleted
           Sample.json_loads Sample.reddit_search no_reposts
           Sample.builtins Sample.environ Sample.int Sample.reddit_comment
           eq_refl ∅ deleted_entry "/r/pics/comments/1/a_cat/c2/"
           (simple_exn ClientException "comment unavailable"));
    reflexivity.
Defined.

Lemma unable_search_reply_or_stage_witness :
  Sample.handle (says "r/doesnotexist123" "t3_1")
  = ([Search "doesnotexist123" (query_of (says "r/doesnotexist123" "t3_1"));
      nonexistent_reply "sub_doesnt_exist_bot" Sample.get_translated_string
        Sample.format (says "r/doesnotexist123" "t3_1") "doesnotexist123"],
     inr tt)
  /\ Sample.handle (says "r/bannedsub" "t1_9")
     = ([Search "bannedsub" (query_of (says "r/bannedsub" "t1_9"))], inr tt).
Proof.
  split.
  - apply (unable_search_reply_or_stage
             Sample.SUB_BLACKLIST "same_subreddit_bot" "sub_doesnt_exist_bot"
             Sample.get_translated_string Sample.format Sample.json_loads
             Sample.reddit_search no_reposts
             (says "r/doesnotexist123" "t3_1") "doesnotexist123"
             [Search "doesnotexist123" (query_of (says "r/doesnotexist123" "t3_1"))]
             (Phase1.MkResult false [] true (Some "SUBREDDIT_DOES_NOT_EXIST")));
      [vm_compute; repeat split | reflexivity | reflexivity].
  - apply (unable_search_reply_or_stage
             Sample.SUB_BLACKLIST "same_subreddit_bot" "sub_doesnt_exist_bot"
             Sample.get_translated_string Sample.format Sample.json_loads
             Sample.reddit_search no_reposts
             (says "r/bannedsub" "t1_9") "bannedsub"
             [Search "bannedsub" (query_of (says "r/bannedsub" "t1_9"))]
             (Phase1.MkResult false [] true (Some "SUBREDDIT_IS_BANNED")));
      [vm_compute; repeat split | reflexivity | reflexivity].
Defined.

Lemma not_found_payload_without_reason_raises_witness :
  Sample.reddit_search "gone" (query_of (says "r/gone" "t3_1"))
  = inl (Exn NotFound [AStr "received 404 HTTP response"]
             (Some not_found_text) None) /\
  sample_gpwsc no_reposts (says "r/gone" "t3_1") "gone"
  = ([Search "gone" (query_of (says "r/gone" "t3_1"))],
     inl (simple_exn KeyError "reason")).
Proof.
  split; [reflexivity|].
  apply (not_found_payload_without_reason_raises
           Sample.json_loads Sample.reddit_search no_reposts
           (says "r/gone" "t3_1") "gone"
           (Exn NotFound [AStr "received 404 HTTP response"]
                (Some not_found_text) None)
           not_found_text
           [("message", JStr "Not Found"); ("error", JNum 404)] []);
    try reflexivity.
  vm_compute. discriminate.
Defined.

Lemma redirect_to_submit_skips_repost_detector_witness :
  seen_before (says "r/newsub" "t3_1") "newsub" = [old_post] /\
  sample_gpwsc seen_before (says "r/newsub" "t3_1") "newsub"
  = ([Search "newsub" (query_of (says "r/newsub" "t3_1"))],
     inr (Phase1.MkResult false [] false None)).
Proof.
  split; [reflexivity|].
  apply (redirect_to_submit_skips_repost_detector
           Sample.json_loads Sample.reddit_search seen_before
           (says "r/newsub" "t3_1") "newsub"
           (Exn Redirect [AStr "Redirect to /submit"] (Some "") None) []);
    try reflexivity.
  vm_compute. discriminate.
Defined.

Lemma run_filters_reports_nothing_witness :
  Sample.builtins !! "target_subreddit" = None /\
  Phase2.run_filters Sample.json_loads Sample.reddit_search no_reposts
    Sample.builtins Sample.environ Sample.int Sample.reddit_comment kept_entry
  = ([], inl unbound_target_subreddit).
Proof.
  split; [reflexivity|].
  apply (run_filters_reports_nothing
           Sample.json_loads Sample.reddit_search no_reposts
           Sample.builtins Sample.environ Sample.int Sample.reddit_comment
           eq_refl kept_entry).
Defined.

Lemma only_top_level_comments_are_staged_witness :
  is_top_level_comment (says "r/newsub" "t1_9") = false /\
  Sample.handle (says "r/newsub" "t1_9")
  = ([Search "newsub" (query_of (says "r/newsub" "t1_9"))], inr tt).
Proof.
  split; [reflexivity|].
  apply (only_top_level_comments_are_staged
           Sample.SUB_BLACKLIST "same_subreddit_bot" "sub_doesnt_exist_bot"
           Sample.get_translated_string Sample.format Sample.json_loads
           Sample.reddit_search no_reposts
           (says "r/newsub" "t1_9") "newsub"
           [Search "newsub" (query_of (says "r/newsub" "t1_9"))]
           (Phase1.MkResult false [] false None));
    [vm_compute; repeat split | reflexivity | reflexivity | reflexivity].
Defined.

Lemma production_loop_survives_witness :
  snd (Main.main false false
         [Yield (says "r/cats" "t3_1") (Some (simple_exn KeyError "reason")) None;
          StreamRaise (simple_exn ServerError "received 503 HTTP response");
          Yield (says "r/newsub" "t3_1") None None;
          StreamRaise (Exn RequestException [AStr "error with request"] None
                           (Some [AExc ReadTimeoutError]));
          StreamEnd])
  = Waiting.
Proof.
  apply (production_loop_survives false
           [Yield (says "r/cats" "t3_1") (Some (simple_exn KeyError "reason")) None;
            StreamRaise (simple_exn ServerError "received 503 HTTP response");
            Yield (says "r/newsub" "t3_1") None None;
            StreamRaise (Exn RequestException [AStr "error with request"] None
                             (Some [AExc ReadTimeoutError]));
            StreamEnd]).
  reflexivity.
Defined.

Lemma process_comment_entry_never_deletes_witness :
  Sample.builtins !! "target_subreddit" = None /\
  existsb is_delete
    (trace (Phase2.process_comment_entry Sample.json_loads Sample.reddit_search
              no_reposts Sample.builtins Sample.environ Sample.int
              Sample.reddit_comment deleted_entry))
  = false.
Proof.
  split; [reflexivity|].
  apply (process_comment_entry_never_deletes
           Sample.json_loads Sample.reddit_search no_reposts
           Sample.builtins Sample.environ Sample.int Sample.reddit_comment
           eq_refl deleted_entry).
Defined.

(** C3 as the specification words it fails in the banned case: the
    search of [r/bannedsub] ends UNABLE with SUBREDDIT_IS_BANNED, and
    the top-level comment gets no reply and is staged. *)
Lemma banned_target_is_staged_without_reply :
  sample_gpwsc no_reposts (says "r/bannedsub" "t3_1") "bannedsub"
  = ([Search "bannedsub" (query_of (says "r/bannedsub" "t3_1"))],
     inr (Phase1.MkResult false [] true (Some "SUBREDDIT_IS_BANNED")))
  /\ Sample.handle (says "r/bannedsub" "t3_1")
     = ([Search "bannedsub" (query_of (says "r/bannedsub" "t3_1"));
         AddComment (says "r/bannedsub" "t3_1")], inr tt).
Proof. split; reflexivity. Qed.

End Witnesses.

(** * More on Phase 1 *)

Section Phase1More.
Import Py Phase1 Pipeline.

Variable SUB_BLACKLIST : list string.
Variables SAME_SUBREDDIT_BOT_NAME SUB_DOESNT_EXIST_BOT_NAME : string.
Variable get_translated_string : string -> string -> string.
Variable format : string -> list (string * string) -> string.
Variable json_loads : string -> option json.
Variable reddit_search : string -> string -> exn + list submission.
Variable get_reposts_in_sub : comment -> string -> list submission.

Local Abbreviation gpwsc :=
  (get_posts_with_same_content json_loads reddit_search get_reposts_in_sub).
Local Abbreviation handle :=
  (handle_incoming_comment SUB_BLACKLIST
     SAME_SUBREDDIT_BOT_NAME SUB_DOESNT_EXIST_BOT_NAME
     get_translated_string format json_loads reddit_search get_reposts_in_sub).
Local Abbreviation after_search :=
  (Pipeline.after_search SUB_DOESNT_EXIST_BOT_NAME get_translated_string format).
Local Abbreviation cases :=
  (handle_cases SUB_BLACKLIST SAME_SUBREDDIT_BOT_NAME SUB_DOESNT_EXIST_BOT_NAME
     get_translated_string format json_loads reddit_search get_reposts_in_sub).

Ltac on_message :=
  match goal with
  | |- context [msg_eq ?a ?s] => destruct (msg_eq a s) eqn:?
  end.


(** X1: a comment for which the handler makes any call at all (a
    search, a reply, an insert) matched the pattern with a name of at
    most 24 characters, is not a moderator's, has no prohibited phrase
    in its title, and neither community is blacklisted. *)
Theorem calls_only_after_every_filter (c : comment) :
  trace (handle c) <> [] ->
  exists target,
    check_pattern c = Some target /\
    (String.length target <= SUBREDDIT_NAME_LENGTH_LIMIT)%nat /\
    is_mod_post c = false /\
    title_contains_prohibited_phrases c = false /\
    str_in (lower target) SUB_BLACKLIST = false /\
    str_in (lower (subreddit_display_name c)) SUB_BLACKLIST = false.
Proof.
  unfold handle_incoming_comment.
  destruct (check_pattern c) as [target|]; [|intros H; now destruct H].
  destruct (SUBREDDIT_NAME_LENGTH_LIMIT <? String.length target)%nat eqn:Hl;
    [intros H; now destruct H|].
  destruct (is_mod_post c) eqn:Hm; [intros H; now destruct H|].
  destruct (title_contains_prohibited_phrases c) eqn:Ht;
    [intros H; now destruct H|].
  destruct (str_in (lower target) SUB_BLACKLIST) eqn:Hb1;
    [intros H; now destruct H|].
  destruct (str_in (lower (subreddit_display_name c)) SUB_BLACKLIST) eqn:Hb2;
    [intros H; now destruct H|].
  intros _. exists target. apply Nat.ltb_ge in Hl.
  repeat split; assumption || reflexivity.
Qed.

(** X2: a comment that passes the filters and names, in any letter
    case, the community it was posted in gets the same-subreddit reply
    from the dedicated account, and no search is made. *)
Theorem same_subreddit_reply_without_search (c : comment) (target : string) :
  check_pattern c = Some target ->
  (String.length target <= SUBREDDIT_NAME_LENGTH_LIMIT)%nat ->
  is_mod_post c = false ->
  title_contains_prohibited_phrases c = false ->
  str_in (lower target) SUB_BLACKLIST = false ->
  lower target = lower (subreddit_display_name c) ->
  handle c
  = ([Reply (Some SAME_SUBREDDIT_BOT_NAME) (id_ c)
        (get_translated_string "THATS_WHERE_WE_ARE" target)], inr tt).
Proof.
  intros Hp Hl Hm Ht Hb Hs. unfold handle_incoming_comment.
  apply Nat.ltb_ge in Hl. rewrite Hp, Hl, Hm, Ht, <- Hs, Hb.
  cbn [orb]. rewrite String.eqb_refl. reflexivity.
Qed.

(** X3: when the search of a comment that reached it finds posts, the
    reply cites the first of them, comes from the default account, and
    is the only side effect. *)
Theorem found_reply_cites_first_post
        (c : comment) (target : string) (t : list call) (r : Result) :
  reaches_search SUB_BLACKLIST c target ->
  gpwsc c target = (t, inr r) ->
  posts_found r = true ->
  exists p ps,
    posts r = p :: ps /\
    handle c
    = (t ++ [Reply None (id_ c)
               (format
                  (get_translated_string "FOUND_POST_WITH_SAME_CONTENT" target)
                  [("same_content_post_url", post_permalink p);
                   ("target_subreddit", target)])], inr tt).
Proof.
  intros R Hg Hf.
  pose proof (handle_reaches_search _ SAME_SUBREDDIT_BOT_NAME
                SUB_DOESNT_EXIST_BOT_NAME get_translated_string format
                _ _ _ c target t r R Hg) as H.
  assert (Hne : posts r <> []).
  { apply (gpwsc_found_nonempty json_loads reddit_search get_reposts_in_sub
             c target); [now rewrite Hg | assumption]. }
  unfold Pipeline.after_search in H. rewrite Hf in H.
  destruct (posts r) as [|p ps]; [now destruct Hne|].
  exists p, ps. split; [reflexivity | exact H].
Qed.

(** X4: when the search client raises for a comment that reached the
    search, the handler raises that same exception, having made the
    calls of the search client and no other: no reply is posted and
    nothing is inserted. *)
Theorem search_failure_leaves_no_side_effect
        (c : comment) (target : string) (t : list call) (e : exn) :
  reaches_search SUB_BLACKLIST c target ->
  gpwsc c target = (t, inl e) ->
  handle c = (t, inl e) /\
  side_effects (trace (handle c)) = [] /\
  existsb is_reply (trace (handle c)) = false /\
  existsb is_insert (trace (handle c)) = false.
Proof.
  intros R Hg.
  pose proof (handle_search_raises SUB_BLACKLIST SAME_SUBREDDIT_BOT_NAME
                SUB_DOESNT_EXIST_BOT_NAME get_translated_string format
                json_loads reddit_search get_reposts_in_sub
                c target t e R Hg) as H.
  pose proof (gpwsc_no_side_effect json_loads reddit_search get_reposts_in_sub
                c target) as N.
  pose proof (gpwsc_trace json_loads reddit_search get_reposts_in_sub
                c target) as T.
  rewrite Hg in N, T. cbn [trace fst] in N, T.
  rewrite H. cbn [trace fst].
  split; [reflexivity|]. split; [exact N|].
  destruct T as [-> | ->]; split; reflexivity.
Qed.

(** X5: a private target is handled like one with no duplicate: no
    reply; the comment is staged when top-level and dropped otherwise. *)
Theorem private_target_staged_if_top_level
        (c : comment) (target : string) (t : list call) (r : Result) :
  reaches_search SUB_BLACKLIST c target ->
  gpwsc c target = (t, inr r) ->
  outcome_of r = UNABLE (Some "SUBREDDIT_IS_PRIVATE") ->
  handle c
  = (t ++ (if is_top_level_comment c then [AddComment c] else []), inr tt).
Proof.
  intros R Hg Ho.
  pose proof (handle_reaches_search _ SAME_SUBREDDIT_BOT_NAME
                SUB_DOESNT_EXIST_BOT_NAME get_translated_string format
                _ _ _ c target t r R Hg) as H.
  unfold Pipeline.after_search in H. unfold outcome_of in Ho.
  destruct (posts_found r); [discriminate|].
  destruct (unable_to_search r); [|discriminate].
  injection Ho as E. rewrite E in H. exact H.
Qed.

(** X6: what the search client returns is well formed: posts are
    reported found exactly when the list of posts is not empty; the
    search is reported unable exactly when a reason is given, and the
    reason is one of three; found and unable never go together. *)
Theorem search_result_well_formed (c : comment) (subreddit : string) (r : Result) :
  outcome (gpwsc c subreddit) = inr r ->
  (posts_found r = true <-> posts r <> []) /\
  (unable_to_search r = true <-> unable_to_search_reason r <> None) /\
  posts_found r && unable_to_search r = false /\
  (unable_to_search r = true ->
   In (unable_to_search_reason r)
      [Some "SUBREDDIT_DOES_NOT_EXIST"; Some "SUBREDDIT_IS_BANNED";
       Some "SUBREDDIT_IS_PRIVATE"]).
Proof.
  assert (W : forall r0 : Result,
             r0 = MkResult false [] false None \/
             r0 = MkResult false [] true (Some "SUBREDDIT_DOES_NOT_EXIST") \/
             r0 = MkResult false [] true (Some "SUBREDDIT_IS_BANNED") \/
             r0 = MkResult false [] true (Some "SUBREDDIT_IS_PRIVATE") \/
             (exists p ps, r0 = MkResult true (p :: ps) false None) ->
             (posts_found r0 = true <-> posts r0 <> []) /\
             (unable_to_search r0 = true <-> unable_to_search_reason r0 <> None) /\
             posts_found r0 && unable_to_search r0 = false /\
             (unable_to_search r0 = true ->
              In (unable_to_search_reason r0)
                 [Some "SUBREDDIT_DOES_NOT_EXIST"; Some "SUBREDDIT_IS_BANNED";
                  Some "SUBREDDIT_IS_PRIVATE"])).
  { intros r0 [->|[->|[->|[->|(p & ps & ->)]]]]; cbn;
      repeat split; try discriminate; try congruence; auto. }
  intros H. apply W. clear W. revert H.
  unfold get_posts_with_same_content.
  destruct (reddit_search _ _) as [e|subs].
  - destruct (is_Exception e); [|discriminate]. cbn [negb].
    destruct e as [k [|a l] resp orig]; [discriminate|].
    cbn -[String.append msg_eq json_subscript].
    repeat (on_message; cbn -[String.append msg_eq json_subscript]).
    all: try (intros [= <-]; auto 10).
    all: try discriminate.
    all: destruct resp as [text|]; cbn -[String.append json_subscript];
      try discriminate.
    all: destruct (String.eqb text ""); cbn -[String.append json_subscript];
      try (intros [= <-]; auto 10).
    all: destruct (json_loads text) as [obj|]; cbn -[String.append json_subscript];
      try (intros [= <-]; auto 10).
    all: destruct (json_subscript obj "reason") as [e'|v];
      cbn -[String.append]; try discriminate.
    all: destruct (json_eq_str v "banned"); intros [= <-]; auto 10.
  - destruct subs as [|s subs]; cbn -[String.append].
    + destruct (get_reposts_in_sub c subreddit) as [|p ps]; cbn;
        intros [= <-]; eauto 10.
    + intros [= <-]. eauto 10.
Qed.

(** X7: results the platform returns are reported found as they come,
    in its order, and the repost detector is not asked. *)
Theorem nonempty_results_found_in_order
        (c : comment) (subreddit : string) (s : submission)
        (ss : list submission) :
  reddit_search subreddit (query_of c) = inr (s :: ss) ->
  gpwsc c subreddit
  = ([Search subreddit (query_of c)], inr (MkResult true (s :: ss) false None)).
Proof.
  intros Hs. unfold get_posts_with_same_content. fold (query_of c).
  rewrite Hs. reflexivity.
Qed.

(** X8: the search client makes exactly one search, and asks the repost
    detector, once and after the search, exactly when the platform
    returned an empty list of results. *)
Theorem repost_detector_asked_iff_empty_results (c : comment) (subreddit : string) :
  (reddit_search subreddit (query_of c) = inr [] ->
   trace (gpwsc c subreddit)
   = [Search subreddit (query_of c); GetRepostsInSub c subreddit]) /\
  (reddit_search subreddit (query_of c) <> inr [] ->
   trace (gpwsc c subreddit) = [Search subreddit (query_of c)]).
Proof.
  split.
  - intros Hs. unfold get_posts_with_same_content. fold (query_of c).
    rewrite Hs. cbn. destruct (get_reposts_in_sub c subreddit); reflexivity.
  - intros Hs. unfold get_posts_with_same_content. fold (query_of c).
    destruct (reddit_search subreddit (query_of c)) as [e|[|s ss]];
      [|now destruct Hs|reflexivity].
    destruct (is_Exception e); [|reflexivity]. cbn [negb].
    destruct e as [k [|a l] resp orig]; [reflexivity|].
    cbn -[String.append msg_eq json_subscript].
    repeat (on_message; cbn -[String.append msg_eq json_subscript]; auto).
    all: destruct resp as [text|]; cbn -[String.append json_subscript]; auto.
    all: destruct (String.eqb text ""); cbn -[String.append json_subscript]; auto.
    all: destruct (json_loads text) as [obj|]; cbn -[String.append json_subscript]; auto.
    all: destruct (json_subscript obj "reason") as [e'|v];
      cbn -[String.append]; auto.
    all: destruct (json_eq_str v "banned"); auto.
Qed.

(** X9: a forbidden answer makes the search UNABLE with
    SUBREDDIT_IS_PRIVATE, whatever the response holds. *)
Theorem forbidden_is_private
        (c : comment) (subreddit : string) (e : exn) (rest : list arg) :
  reddit_search subreddit (query_of c) = inl e ->
  is_Exception e = true ->
  args e = AStr "received 403 HTTP response" :: rest ->
  gpwsc c subreddit
  = ([Search subreddit (query_of c)],
     inr (MkResult false [] true (Some "SUBREDDIT_IS_PRIVATE"))).
Proof.
  intros Hs Hx Ha.
  destruct (failure_classification json_loads reddit_search get_reposts_in_sub
              c subreddit e _ rest Hs Hx Ha) as (_ & H & _).
  exact (H eq_refl).
Qed.

(** X10: on a redirect to the subreddit search page, or a 404 answer,
    whose payload is empty or is not JSON, the search is UNABLE with
    SUBREDDIT_DOES_NOT_EXIST; when the payload is a JSON object with a
    [reason] field, it is SUBREDDIT_IS_BANNED exactly when that field
    is the string [banned]. *)
Theorem absent_target_outcomes
        (c : comment) (subreddit : string) (e : exn) (msg text : string)
        (rest : list arg) :
  reddit_search subreddit (query_of c) = inl e ->
  is_Exception e = true ->
  args e = AStr msg :: rest ->
  msg = "Redirect to /subreddits/search" \/ msg = "received 404 HTTP response" ->
  response e = Some text ->
  (text = "" \/ json_loads text = None ->
   gpwsc c subreddit
   = ([Search subreddit (query_of c)],
      inr (MkResult false [] true (Some "SUBREDDIT_DOES_NOT_EXIST")))) /\
  (forall fields v,
     text <> "" -> json_loads text = Some (JObj fields) ->
     assoc "reason" fields = Some v ->
     gpwsc c subreddit
     = ([Search subreddit (query_of c)],
        inr (MkResult false [] true
               (Some (if json_eq_str v "banned"
                      then "SUBREDDIT_IS_BANNED"
                      else "SUBREDDIT_DOES_NOT_EXIST"))))).
Proof.
  intros Hs Hx Ha Hm Hr.
  destruct (failure_classification json_loads reddit_search get_reposts_in_sub
              c subreddit e _ rest Hs Hx Ha) as (_ & _ & H & _).
  destruct (H Hm text Hr) as (H1 & H2). split; [exact H1|].
  intros fields v Hne Hj Hv. apply (H2 (JObj fields) v Hne Hj).
  unfold json_subscript. rewrite Hv. reflexivity.
Qed.

(** X11: a failure of the search whose message is none of the four the
    client knows is raised again as it is, after the one search. *)
Theorem unlisted_failure_propagates
        (c : comment) (subreddit : string) (e : exn) (msg : string)
        (rest : list arg) :
  reddit_search subreddit (query_of c) = inl e ->
  is_Exception e = true ->
  args e = AStr msg :: rest ->
  ~ In msg ["Redirect to /submit"; "Redirect to /subreddits/search";
            "received 404 HTTP response"; "received 403 HTTP response"] ->
  gpwsc c subreddit = ([Search subreddit (query_of c)], inl e).
Proof.
  intros Hs Hx Ha Hn.
  destruct (failure_classification json_loads reddit_search get_reposts_in_sub
              c subreddit e _ rest Hs Hx Ha) as (_ & _ & _ & H).
  apply H; intros ->; apply Hn; cbn; auto.
Qed.

(** X12: a failure of the search that carries no argument makes the
    handler of the failure raise [IndexError] in its place. *)
Theorem failure_without_args_raises_IndexError
        (c : comment) (subreddit : string) (e : exn) :
  reddit_search subreddit (query_of c) = inl e ->
  is_Exception e = true ->
  args e = [] ->
  gpwsc c subreddit
  = ([Search subreddit (query_of c)],
     inl (simple_exn IndexError "tuple index out of range")).
Proof.
  intros Hs Hx Ha. unfold get_posts_with_same_content. fold (query_of c).
  rewrite Hs, Hx. unfold args0. rewrite Ha. reflexivity.
Qed.

End Phase1More.

(** * The title filter *)

Section TitleFilter.
Import Re Phase1 Phrases.

Local Abbreviation accept := (fun (_ : cursor) (caps : captures) => Some caps).

Lemma matches_word_strip (w : string) :
  forall bef ahd caps k,
    matches true (word w) (Cursor bef ahd) caps k
    = match strip_word w bef ahd with
      | Some (bef', rest) => k (Cursor bef' rest) caps
      | None => None
      end.
Proof.
  induction w as [|c w IH]; intros bef ahd caps k.
  - reflexivity.
  - cbn [word matches strip_word ahead before].
    destruct ahd as [|x rest]; [reflexivity|].
    destruct (lit_eq true x c); [apply IH | reflexivity].
Qed.

Lemma matches_phrase (w : string) (bef ahd : list ascii) :
  matches true (Cat WordB (Cat (word w) WordB)) (Cursor bef ahd) [] accept
  = if phrase_here w bef ahd then Some [] else None.
Proof.
  unfold phrase_here, boundary. cbn [matches ahead before].
  destruct (xorb (word_at bef) (word_at ahd)); [|reflexivity].
  rewrite matches_word_strip. cbn [andb].
  destruct (strip_word w bef ahd) as [[bef' rest]|]; [|reflexivity].
  cbn [matches ahead before].
  destruct (xorb (word_at bef') (word_at rest)); reflexivity.
Qed.

Lemma matches_prohibited (bef ahd : list ascii) :
  matches true prohibited_phrases (Cursor bef ahd) [] accept
  = if any_phrase_here bef ahd then Some [] else None.
Proof.
  unfold prohibited_phrases, any_phrase_here, prohibited_words.
  cbn [map alternatives existsb].
  change (matches true (Alt ?r1 ?r2) ?cur ?caps ?k)
    with (match matches true r1 cur caps k with
          | Some m => Some m
          | None => matches true r2 cur caps k
          end).
  change (matches true (Alt ?r1 ?r2) ?cur ?caps ?k)
    with (match matches true r1 cur caps k with
          | Some m => Some m
          | None => matches true r2 cur caps k
          end).
  change (matches true (Alt ?r1 ?r2) ?cur ?caps ?k)
    with (match matches true r1 cur caps k with
          | Some m => Some m
          | None => matches true r2 cur caps k
          end).
  rewrite !matches_phrase.
  destruct (phrase_here "sub" bef ahd); [reflexivity|].
  destruct (phrase_here "subs" bef ahd); [reflexivity|].
  destruct (phrase_here "subreddit" bef ahd); [reflexivity|].
  destruct (phrase_here "subreddits" bef ahd); reflexivity.
Qed.

Lemma search_prohibited (ahd : list ascii) :
  forall bef,
    search_from true prohibited_phrases bef ahd
    = if any_position any_phrase_here bef ahd then Some [] else None.
Proof.
  induction ahd as [|x rest IH]; intros bef; cbn [search_from any_position];
    rewrite matches_prohibited.
  - destruct (any_phrase_here bef []); reflexivity.
  - destruct (any_phrase_here bef (x :: rest)); [reflexivity|].
    cbn [orb]. apply IH.
Qed.

Lemma title_filter_positions (c : comment) :
  title_contains_prohibited_phrases c
  = any_position any_phrase_here [] (list_ascii_of_string (submission_title c)).
Proof.
  unfold title_contains_prohibited_phrases, search.
  rewrite search_prohibited.
  destruct (any_position _ _ _); reflexivity.
Qed.

Lemma any_position_split p :
  forall ahd bef,
    any_position p bef ahd = true <->
    exists mid post, ahd = mid ++ post /\ p (rev mid ++ bef) post = true.
Proof.
  induction ahd as [|x rest IH]; intros bef; cbn [any_position].
  - rewrite orb_false_r. split.
    + intros H. exists [], []. auto.
    + intros (mid & post & E & H).
      symmetry in E. apply app_eq_nil in E. destruct E as [-> ->]. exact H.
  - rewrite orb_true_iff, IH. split.
    + intros [H|(mid & post & -> & H)].
      * exists [], (x :: rest). auto.
      * exists (x :: mid), post. split; [reflexivity|].
        cbn [rev]. rewrite <- app_assoc. exact H.
    + intros (mid & post & E & H). destruct mid as [|y mid].
      * cbn in E. subst post. left. exact H.
      * injection E as <- ->. right. exists mid, post. split; [reflexivity|].
        cbn [rev] in H. rewrite <- app_assoc in H. exact H.
Qed.

Lemma is_word_lower (x : ascii) : is_word (lower_ascii x) = is_word x.
Proof. destruct x as [[] [] [] [] [] [] [] []]; reflexivity. Qed.


Lemma strip_word_split (w : string) :
  forall bef ahd bef' rest,
    strip_word w bef ahd = Some (bef', rest) <->
    exists w', ahd = w' ++ rest /\ bef' = rev w' ++ bef /\
               map lower_ascii w' = map lower_ascii (list_ascii_of_string w).
Proof.
  induction w as [|c w IH]; intros bef ahd bef' rest; cbn [strip_word].
  - split.
    + intros [= <- <-]. exists []. auto.
    + intros (w' & -> & -> & E). destruct w'; [reflexivity | discriminate].
  - destruct ahd as [|x ahd].
    + split; [discriminate|].
      intros (w' & E & _ & E'). destruct w'; discriminate.
    + unfold lit_eq. destruct (Ascii.eqb_spec (lower_ascii x) (lower_ascii c)) as [Ex|Nx].
      * rewrite IH. split.
        -- intros (w' & -> & -> & E). exists (x :: w'). cbn.
           rewrite <- app_assoc, Ex, E. auto.
        -- intros (w' & E & -> & E'). destruct w' as [|y w']; [discriminate|].
           injection E as <- ->. cbn in E'. injection E' as _ E'.
           exists w'. cbn [rev]. rewrite <- app_assoc. auto.
      * split; [discriminate|].
        intros (w' & E & _ & E'). destruct w' as [|y w']; [discriminate|].
        injection E as <- _. cbn in E'. injection E' as E' _. contradiction.
Qed.

Lemma word_at_lower (l : list ascii) :
  word_at (map lower_ascii l) = word_at l.
Proof. destruct l; [reflexivity | apply is_word_lower]. Qed.

Lemma word_at_rev_lower (l bef : list ascii) :
  l <> [] -> word_at (rev l ++ bef) = word_at (rev (map lower_ascii l)).
Proof.
  intros Hne. rewrite <- map_rev, word_at_lower.
  destruct (rev l) as [|y r] eqn:E; [|reflexivity].
  apply (f_equal (@rev ascii)) in E. rewrite rev_involutive in E. contradiction.
Qed.

Lemma phrase_here_split (w : string) (bef ahd : list ascii) :
  In w prohibited_words ->
  phrase_here w bef ahd = true <->
  word_at bef = false /\
  exists w' rest, ahd = w' ++ rest /\
                  map lower_ascii w' = list_ascii_of_string w /\
                  word_at rest = false.
Proof.
  intros Hw.
  assert (Hlow : map lower_ascii (list_ascii_of_string w) = list_ascii_of_string w).
  { cbn in Hw. repeat (destruct Hw as [<-|Hw]; [reflexivity|]). destruct Hw. }
  assert (Hfirst : word_at (list_ascii_of_string w) = true).
  { cbn in Hw. repeat (destruct Hw as [<-|Hw]; [reflexivity|]). destruct Hw. }
  assert (Hlast : word_at (rev (list_ascii_of_string w)) = true).
  { cbn in Hw. repeat (destruct Hw as [<-|Hw]; [reflexivity|]). destruct Hw. }
  assert (Hne : list_ascii_of_string w <> []).
  { intros E. rewrite E in Hfirst. discriminate. }
  unfold phrase_here, boundary. rewrite andb_true_iff. split.
  - intros [Hb Hs].
    destruct (strip_word w bef ahd) as [[bef' rest]|] eqn:E; [|discriminate].
    apply strip_word_split in E. destruct E as (w' & -> & -> & E).
    rewrite Hlow in E.
    assert (Hw' : w' <> []).
    { intros ->. cbn in E. now apply Hne. }
    assert (F : word_at (w' ++ rest) = true).
    { destruct w' as [|x w']; [now destruct Hw'|].
      change (is_word x = true). rewrite <- is_word_lower.
      change (word_at (map lower_ascii (x :: w')) = true).
      rewrite E. exact Hfirst. }
    rewrite F in Hb.
    rewrite (word_at_rev_lower w' bef Hw'), E, Hlast in Hs.
    split; [now destruct (word_at bef)|].
    exists w', rest. repeat split; [assumption|].
    now destruct (word_at rest).
  - intros (Hb & w' & rest & -> & E & Hr).
    assert (Hw' : w' <> []).
    { intros ->. cbn in E. now apply Hne. }
    assert (F : word_at (w' ++ rest) = true).
    { destruct w' as [|x w']; [now destruct Hw'|].
      change (is_word x = true). rewrite <- is_word_lower.
      change (word_at (map lower_ascii (x :: w')) = true).
      rewrite E. exact Hfirst. }
    rewrite Hb, F. split; [reflexivity|].
    assert (S : strip_word w bef (w' ++ rest) = Some (rev w' ++ bef, rest)).
    { apply strip_word_split. exists w'. rewrite Hlow. auto. }
    rewrite S, (word_at_rev_lower w' bef Hw'), E, Hlast, Hr. reflexivity.
Qed.

Lemma lower_list (s : string) :
  list_ascii_of_string (Py.lower s) = map lower_ascii (list_ascii_of_string s).
Proof. unfold Py.lower. apply list_ascii_of_string_of_list_ascii. Qed.

(** X13: among the titles made of ASCII characters only, the title
    filter rejects exactly those in which one of [sub], [subs],
    [subreddit], [subreddits] occurs, in any letter case, as a whole
    word: not preceded and not followed by a letter, a digit or an
    underscore. *)
Theorem prohibited_title_whole_word (c : comment) :
  is_ascii (submission_title c) = true ->
  title_contains_prohibited_phrases c = true <->
  exists pre w post : string,
    submission_title c = (pre ++ w ++ post)%string /\
    In (Py.lower w) prohibited_words /\
    ends_in_word pre = false /\ starts_with_word post = false.
Proof.
  intros _.
  rewrite title_filter_positions, any_position_split.
  unfold any_phrase_here. split.
  - intros (mid & post & E & H).
    apply existsb_exists in H. destruct H as (w & Hw & H).
    apply (phrase_here_split w _ _ Hw) in H.
    destruct H as (Hb & w' & rest & -> & Ew & Hr).
    exists (string_of_list_ascii mid), (string_of_list_ascii w'),
           (string_of_list_ascii rest).
    split; [|split; [|split]].
    + rewrite <- (string_of_list_ascii_of_string (submission_title c)), E.
      rewrite <- (string_of_list_ascii_of_string (_ ++ _)%string).
      f_equal. rewrite !list_ascii_of_string_app.
      rewrite !list_ascii_of_string_of_list_ascii. reflexivity.
    + replace (Py.lower (string_of_list_ascii w')) with w; [exact Hw|].
      rewrite <- (string_of_list_ascii_of_string w), <- Ew.
      unfold Py.lower. rewrite list_ascii_of_string_of_list_ascii. reflexivity.
    + unfold ends_in_word. rewrite list_ascii_of_string_of_list_ascii.
      rewrite app_nil_r in Hb. exact Hb.
    + unfold starts_with_word. rewrite list_ascii_of_string_of_list_ascii.
      exact Hr.
  - intros (pre & w & post & E & Hw & Hp & Hs).
    exists (list_ascii_of_string pre),
           (list_ascii_of_string w ++ list_ascii_of_string post).
    split.
    + rewrite E, !list_ascii_of_string_app. reflexivity.
    + apply existsb_exists. exists (Py.lower w). split; [exact Hw|].
      apply (phrase_here_split _ _ _ Hw). rewrite app_nil_r.
      split; [exact Hp|].
      exists (list_ascii_of_string w), (list_ascii_of_string post).
      repeat split; [|exact Hs].
      symmetry. apply lower_list.
Qed.

End TitleFilter.

(** * More on Phase 2 *)

Section Phase2More.
Import Py Phase2 Pipeline.
Import Phase1 (call, Search, GetRepostsInSub, Reply, AddComment,
               FetchComment, SetCommentChecked, DeleteComment, submission).

Variable json_loads : string -> option json.
Variable reddit_search : string -> string -> exn + list submission.
Variable get_reposts_in_sub : Phase1.comment -> string -> list submission.
Variable builtins : gmap string value.
Variable environ : gmap string string.
Variable int : option string -> exn + Z.
Variable reddit_comment : string -> exn + Phase1.comment.

Local Abbreviation gpwsc :=
  (Phase1.get_posts_with_same_content json_loads reddit_search get_reposts_in_sub).
Local Abbreviation checks :=
  (run_filters_checks json_loads reddit_search get_reposts_in_sub
                      environ int reddit_comment).
Local Abbreviation run_filters :=
  (Phase2.run_filters json_loads reddit_search get_reposts_in_sub
                      builtins environ int reddit_comment).
Local Abbreviation process_comment_entry :=
  (Phase2.process_comment_entry json_loads reddit_search get_reposts_in_sub
                                builtins environ int reddit_comment).
Local Abbreviation available := (check_comment_availability reddit_comment).

(** X14: the availability check fetches the comment once; it answers
    true when the fetch succeeds, false when the fetch raises a
    [ClientException], and raises again anything else. *)
Theorem availability_by_fetch (c : lazy_comment) :
  trace (available c) = [FetchComment c] /\
  (forall fetched, reddit_comment c = inr fetched ->
                   outcome (available c) = inr true) /\
  (forall e, reddit_comment c = inl e -> cls e = ClientException ->
             outcome (available c) = inr false) /\
  (forall e, reddit_comment c = inl e -> cls e <> ClientException ->
             outcome (available c) = inl e).
Proof.
  unfold check_comment_availability.
  destruct (reddit_comment c) as [e|fetched].
  - destruct (exc_class_eqb (cls e) ClientException) eqn:E.
    + repeat split; try discriminate.
      intros e' [= <-] N. destruct (cls e); try discriminate. now destruct N.
    + repeat split; try discriminate.
      * intros e' [= <-] Hc. rewrite Hc in E. discriminate.
      * intros e' [= <-] _. reflexivity.
  - repeat split; discriminate.
Qed.

(** The checks only ask: they never post, insert, mark or delete. *)
Lemma checks_no_side_effect (class_ns : gmap string value)
      (comment_entry : gmap string string) :
  side_effects (trace (checks class_ns comment_entry)) = [].
Proof.
  unfold run_filters_checks, subscript.
  destruct (comment_entry !! "permalink") as [permalink|]; [|reflexivity].
  cbn [bind ret app]. unfold check_comment_availability.
  set (url := get_full_comment_from_reddit permalink).
  destruct (reddit_comment url) as [e|fetched] eqn:Hc.
  - destruct (exc_class_eqb (cls e) ClientException); reflexivity.
  - cbn [bind emit ret app negb answer].
    destruct (int (environ !! "COMMENT_SCORE_THRESHOLD")) as [e|threshold];
      [reflexivity|].
    cbn [bind app].
    destruct (Phase1.score fetched <? threshold)%Z; [reflexivity|].
    destruct (Phase1.check_pattern fetched) as [name|]; [|reflexivity].
    pose proof (gpwsc_no_side_effect json_loads reddit_search
                  get_reposts_in_sub fetched name) as N.
    destruct (gpwsc fetched name) as [t [e|g]]; cbn [trace fst] in N.
    + cbn [bind trace fst app]. exact N.
    + cbn [bind].
      destruct (Phase1.posts_found g);
        [destruct (Phase1.posts g)
        |destruct (Phase1.unable_to_search g)];
        cbn [bind ret raise trace fst app]; rewrite ?app_nil_r; exact N.
Qed.

(** X15: a staging record without a [permalink] makes the checks raise
    [KeyError] before any call is made. *)
Theorem checks_need_permalink (class_ns : gmap string value)
        (comment_entry : gmap string string) :
  comment_entry !! "permalink" = None ->
  checks class_ns comment_entry = ([], inl (simple_exn KeyError "permalink")).
Proof.
  intros H. unfold run_filters_checks, subscript. rewrite H. reflexivity.
Qed.

(** X16: whatever result the checks return, the record passes exactly
    when no reason is given, and the result holds the comment made
    from the record's permalink. *)
Theorem checks_pass_iff_no_reason (class_ns : gmap string value)
        (comment_entry : gmap string string) (r : Result) :
  outcome (checks class_ns comment_entry) = inr r ->
  (passes_filter r = true <-> reason r = None) /\
  exists permalink,
    comment_entry !! "permalink" = Some permalink /\
    comment r = Some (get_full_comment_from_reddit permalink).
Proof.
  unfold run_filters_checks, subscript.
  destruct (comment_entry !! "permalink") as [permalink|]; [|discriminate].
  cbn [bind ret app]. unfold check_comment_availability.
  set (url := get_full_comment_from_reddit permalink).
  assert (G : forall r0 : Result,
             comment r0 = Some url ->
             (passes_filter r0 = true <-> reason r0 = None) ->
             (passes_filter r0 = true <-> reason r0 = None) /\
             exists p, Some permalink = Some p /\
                       comment r0 = Some (get_full_comment_from_reddit p)).
  { intros r0 Hc Hp. split; [exact Hp|]. exists permalink. auto. }
  destruct (reddit_comment url) as [e|fetched] eqn:Hc.
  - destruct (exc_class_eqb (cls e) ClientException); [|discriminate].
    cbn. intros [= <-]. apply G; cbn; [reflexivity | split; discriminate].
  - cbn [bind emit ret app negb answer].
    destruct (int (environ !! "COMMENT_SCORE_THRESHOLD")) as [e|threshold];
      [discriminate|].
    cbn [bind app].
    destruct (Phase1.score fetched <? threshold)%Z.
    { cbn. intros [= <-]. apply G; cbn; [reflexivity | split; discriminate]. }
    destruct (Phase1.check_pattern fetched) as [name|].
    2:{ cbn. intros [= <-]. apply G; cbn; [reflexivity | split; discriminate]. }
    destruct (gpwsc fetched name) as [t [e|g]]; [discriminate|].
    cbn [bind].
    destruct (Phase1.posts_found g).
    + destruct (Phase1.posts g); [discriminate|].
      cbn. intros [= <-]. apply G; cbn; [reflexivity | split; discriminate].
    + destruct (Phase1.unable_to_search g); cbn; intros [= <-]; apply G; cbn;
        try reflexivity; split; try discriminate; reflexivity.
Qed.

(** X17: when the threshold cannot be read from the environment, the
    checks raise what [int] raised, and only after the comment has been
    fetched and found available. *)
Theorem checks_threshold_error (class_ns : gmap string value)
        (comment_entry : gmap string string) (permalink : string)
        (fetched : Phase1.comment) (e : exn) :
  comment_entry !! "permalink" = Some permalink ->
  reddit_comment (get_full_comment_from_reddit permalink) = inr fetched ->
  int (environ !! "COMMENT_SCORE_THRESHOLD") = inl e ->
  checks class_ns comment_entry
  = ([FetchComment (get_full_comment_from_reddit permalink)], inl e).
Proof.
  intros Hp Hc Hi. unfold run_filters_checks, subscript. rewrite Hp.
  cbn [bind ret app]. unfold check_comment_availability. rewrite Hc.
  cbn [bind emit ret app negb answer]. rewrite Hi. reflexivity.
Qed.

(** X18: whatever the builtins hold, the only thing Phase-2 ever does
    to the staging store for a record is to mark it checked, once, and
    it does so exactly when [run_filters] returns; it never deletes. *)
Theorem phase2_store_calls (comment_entry : gmap string string) :
  side_effects (trace (process_comment_entry comment_entry))
  = match outcome (run_filters comment_entry) with
    | inr _ => [SetCommentChecked comment_entry]
    | inl _ => []
    end
  /\ existsb is_delete (trace (process_comment_entry comment_entry)) = false.
Proof.
  assert (P : forall m : M call Result,
             side_effects (trace m) = [] ->
             side_effects
               (trace (bind m (fun result =>
                                 process_result 0 result comment_entry)))
             = match outcome m with
               | inr _ => [SetCommentChecked comment_entry]
               | inl _ => []
               end
             /\ existsb is_delete
                  (trace (bind m (fun result =>
                                    process_result 0 result comment_entry)))
                = false).
  { intros [t [e|r]] Ht; cbn [trace fst] in Ht; cbn [bind trace outcome fst snd].
    - split; [exact Ht|].
      clear -Ht. induction t as [|x t IH]; [reflexivity|].
      cbn in Ht. destruct x; cbn in *; try discriminate; auto.
    - rewrite process_result_marks. cbn [trace fst].
      split.
      + rewrite side_effects_app, Ht. reflexivity.
      + rewrite existsb_app. cbn. rewrite orb_false_r.
        clear -Ht. induction t as [|x t IH]; [reflexivity|].
        cbn in Ht. destruct x; cbn in *; try discriminate; auto. }
  apply P. unfold Phase2.run_filters.
  destruct (class_Result builtins) as [t [e|ns]] eqn:E.
  - unfold class_Result, load_name in E. revert E.
    repeat match goal with
           | |- context [match ?x with Some _ => _ | None => _ end] => destruct x
           end; cbn; intros [= <- <-]; reflexivity.
  - assert (t = []) as ->.
    { unfold class_Result, load_name in E. revert E.
      repeat match goal with
             | |- context [match ?x with Some _ => _ | None => _ end] => destruct x
             end; cbn; intros [= <- <-]; reflexivity. }
    cbn [bind app].
    pose proof (checks_no_side_effect ns comment_entry) as N.
    destruct (checks ns comment_entry) as [t' r]. exact N.
Qed.

(** X27: taken from the statement after the class statement on,
    [run_filters] checks a record in this order and stops at the first
    check that fails: the comment is unavailable; its score is below
    the threshold; its body no longer matches the pattern; the search
    finds posts, or cannot be made.  Only the last check searches. *)
Theorem filter_checks_in_order (class_ns : gmap string value)
        (comment_entry : gmap string string) (permalink : string) :
  comment_entry !! "permalink" = Some permalink ->
  let url := get_full_comment_from_reddit permalink in
  (forall e, reddit_comment url = inl e -> cls e = ClientException ->
     exists r, checks class_ns comment_entry = ([FetchComment url], inr r) /\
               passes_filter r = false /\
               reason r = Some "COMMENT_UNAVAILABLE") /\
  (forall c threshold,
     reddit_comment url = inr c ->
     int (environ !! "COMMENT_SCORE_THRESHOLD") = inr threshold ->
     ((Phase1.score c < threshold)%Z ->
      exists r, checks class_ns comment_entry = ([FetchComment url], inr r) /\
                passes_filter r = false /\
                reason r = Some "COMMENT_SCORE_TOO_LOW") /\
     ((threshold <= Phase1.score c)%Z ->
      (Phase1.check_pattern c = None ->
       exists r, checks class_ns comment_entry = ([FetchComment url], inr r) /\
                 passes_filter r = false /\
                 reason r = Some "TARGET_SUBREDDIT_NOT_FOUND") /\
      (forall name t g,
         Phase1.check_pattern c = Some name -> gpwsc c name = (t, inr g) ->
         exists r,
           checks class_ns comment_entry = (FetchComment url :: t, inr r) /\
           match outcome_of g with
           | FOUND _ =>
               passes_filter r = false /\
               reason r = Some "POST_WITH_SAME_CONTENT_FOUND"
           | UNABLE why =>
               passes_filter r = false /\
               reason r
               = Some ("UNABLE_TO_SEARCH_TARGET_SUBREDDIT_BECAUSE__"
                         ++ match why with Some w => w | None => "None" end)%string
           | NOT_FOUND => passes_filter r = true /\ reason r = None
           end))).
Proof.
  exact (checks_verdicts json_loads reddit_search get_reposts_in_sub
           environ int reddit_comment class_ns comment_entry permalink).
Qed.

End Phase2More.

(** * The batch of Phase 2 *)

Section BatchFacts.
Import Py Phase2 Batch.

Variable json_loads : string -> option json.
Variable reddit_search : string -> string -> exn + list Phase1.submission.
Variable get_reposts_in_sub : Phase1.comment -> string -> list Phase1.submission.
Variable builtins : gmap string value.
Variable environ : gmap string string.
Variable int : option string -> exn + Z.
Variable reddit_comment : string -> exn + Phase1.comment.
Variable timeparse : option string -> exn + option Z.
Variable get_unchecked_comments_older_than :
  option Z -> exn + list (gmap string string).

Local Abbreviation batch :=
  (filter_comments_from_db json_loads reddit_search get_reposts_in_sub
     builtins environ int reddit_comment timeparse
     get_unchecked_comments_older_than).

(** X19: one run of the Phase-2 batch starts one worker for each aged
    record and returns normally; with no builtin called
    [target_subreddit], every worker ends in [NameError] having made no
    call, so the batch leaves the staging store as it found it. *)
Theorem batch_changes_nothing (seconds : option Z)
        (comment_entries : list (gmap string string)) :
  builtins !! "target_subreddit" = None ->
  timeparse (environ !! "PHASE2_WAITING_PERIOD") = inr seconds ->
  get_unchecked_comments_older_than seconds = inr comment_entries ->
  main_thread batch = inr tt /\
  length (workers batch) = length comment_entries /\
  forall w, In w (workers batch) -> w = ([], inl unbound_target_subreddit).
Proof.
  intros Hb Ht Hg. unfold filter_comments_from_db. rewrite Ht, Hg.
  destruct comment_entries as [|x l].
  - cbn. repeat split. intros w [].
  - cbn [length Nat.eqb]. cbn [main_thread workers].
    split; [reflexivity|]. split; [apply length_map|].
    intros w Hw. apply in_map_iff in Hw. destruct Hw as (entry & <- & _).
    apply process_comment_entry_raises. exact Hb.
Qed.

(** X20: when the waiting period cannot be parsed, or the store cannot
    be read, the batch raises that error in the calling thread and
    starts no worker. *)
Theorem batch_setup_errors (e : exn) :
  (timeparse (environ !! "PHASE2_WAITING_PERIOD") = inl e \/
   exists seconds,
     timeparse (environ !! "PHASE2_WAITING_PERIOD") = inr seconds /\
     get_unchecked_comments_older_than seconds = inl e) ->
  batch = Run (inl e) [].
Proof.
  unfold filter_comments_from_db.
  intros [Ht|(seconds & Ht & Hg)]; rewrite Ht; [reflexivity|].
  rewrite Hg. reflexivity.
Qed.

End BatchFacts.

(** * More on the stream consumer *)

Section MainMore.
Import Py Main Faults Counting.

Variable DEBUG : bool.
Variable LISTEN_ONLY : bool.

Lemma handled_app (t1 t2 : list action) :
  handled (t1 ++ t2) = handled t1 ++ handled t2.
Proof.
  induction t1 as [|a t1 IH]; [reflexivity|].
  destruct a; cbn; rewrite ?IH; reflexivity.
Qed.

(** One round over the stream: it stops waiting with the script used
    up, or it has used up at least one step; and the comments it
    handled are those the steps it used up yielded. *)
Lemma for_comments_progress (D : bool) (script : list stream_step) :
  forall t s rest,
    for_comments D script = (t, s, rest) ->
    s <> OutOfFuel /\
    (s = Waiting /\ rest = [] \/
     s <> Waiting /\ (length rest < length script)%nat) /\
    yielded script = handled t ++ yielded rest.
Proof.
  induction script as [|step script IH]; intros t s rest.
  - cbn. intros [= <- <- <-]. repeat split; [discriminate | auto].
  - destruct step as [c handling pending|e|]; cbn [for_comments].
    + destruct (for_comments D script) as [[t' s'] rest'] eqn:E.
      destruct (IH t' s' rest' eq_refl) as (Hf & Hc & Hy).
      assert (Hc' : s' = Waiting /\ rest' = [] \/
                    s' <> Waiting /\
                    (length rest' < length (Yield c handling pending :: script))%nat).
      { destruct Hc as [?|[? ?]]; [left; assumption | right; split; cbn; [assumption|lia]]. }
      destruct handling as [e|]; [|destruct pending as [e|]].
      * destruct (is_Exception e); [destruct D|]; intros [= <- <- <-];
          cbn [yielded]; rewrite ?handled_app; cbn [handled app];
          repeat split; try discriminate; try assumption;
          try (right; split; [discriminate | cbn; lia]);
          try (now rewrite Hy); reflexivity.
      * destruct (is_Exception e); [destruct D|]; intros [= <- <- <-];
          cbn [yielded]; rewrite ?handled_app; cbn [handled app];
          repeat split; try discriminate; try assumption;
          try (right; split; [discriminate | cbn; lia]);
          try (now rewrite Hy); reflexivity.
      * intros [= <- <- <-]. cbn [yielded app handled].
        repeat split; try assumption. now rewrite Hy.
    + intros [= <- <- <-]. cbn. repeat split; try discriminate.
      right. split; [discriminate | lia].
    + intros [= <- <- <-]. cbn. repeat split; try discriminate.
      right. split; [discriminate | lia].
Qed.

Lemma main_loop_progress (D : bool) (fuel : nat) :
  forall script,
    (length script < fuel)%nat ->
    (snd (main_loop D fuel script) = Waiting \/
     exists e, snd (main_loop D fuel script) = Raised e) /\
    exists later,
      yielded script = handled (fst (main_loop D fuel script)) ++ later /\
      (snd (main_loop D fuel script) = Waiting -> later = []).
Proof.
  induction fuel as [|fuel IH]; intros script Hf; [inversion Hf|].
  cbn [main_loop]. unfold listen_to_comment_stream.
  destruct (for_comments D script) as [[t s] rest] eqn:E.
  destruct (for_comments_progress D script t s rest E) as (Ho & Hc & Hy).
  assert (R : s <> Waiting -> (length rest < fuel)%nat).
  { intros N. destruct Hc as [[? _]|[_ ?]]; [contradiction | lia]. }
  assert (Stop : forall e,
             (snd (OpenStream "all" :: LogInfo "Listening to comment stream..." None :: t,
                   Raised e) = Waiting \/
              exists e0,
                snd (OpenStream "all" :: LogInfo "Listening to comment stream..." None :: t,
                     Raised e) = Raised e0) /\
             exists later,
               yielded script
               = handled (fst (OpenStream "all"
                                 :: LogInfo "Listening to comment stream..." None :: t,
                               Raised e)) ++ later /\
               (snd (OpenStream "all" :: LogInfo "Listening to comment stream..." None :: t,
                     Raised e) = Waiting -> later = [])).
  { intros e. cbn. split; [eauto|]. exists (yielded rest). split; [exact Hy | discriminate]. }
  assert (Go : forall mid,
             handled mid = [] -> s <> Waiting ->
             let '(t', s') := main_loop D fuel rest in
             (snd ((OpenStream "all" :: LogInfo "Listening to comment stream..." None :: t)
                     ++ mid ++ t', s') = Waiting \/
              exists e0,
                snd ((OpenStream "all" :: LogInfo "Listening to comment stream..." None :: t)
                       ++ mid ++ t', s') = Raised e0) /\
             exists later,
               yielded script
               = handled (fst ((OpenStream "all"
                                  :: LogInfo "Listening to comment stream..." None :: t)
                                 ++ mid ++ t', s')) ++ later /\
               (snd ((OpenStream "all" :: LogInfo "Listening to comment stream..." None :: t)
                       ++ mid ++ t', s') = Waiting -> later = [])).
  { intros mid Hm N. destruct (IH rest (R N)) as (Hs & later & Hl & Hw).
    destruct (main_loop D fuel rest) as [t' s']. cbn [fst snd] in *.
    split; [exact Hs|]. exists later. split; [|exact Hw].
    cbn [app handled]. rewrite !handled_app, Hm. cbn [app].
    rewrite Hy, Hl, app_assoc. reflexivity. }
  destruct s as [|e| |].
  - specialize (Go [] eq_refl ltac:(discriminate)). cbn [app] in Go.
    destruct (main_loop D fuel rest) as [t' s']. exact Go.
  - destruct (is_network_fault e).
    + destruct D; [apply Stop|].
      specialize (Go (cool_down e) eq_refl ltac:(discriminate)).
      unfold cool_down in Go.
      destruct (main_loop false fuel rest) as [t' s'].
      cbn [app] in Go |- *. exact Go.
    + destruct (exc_class_eqb (cls e) RequestException); [|apply Stop].
      destruct (is_max_retry_or_read_timeout_error e); [|apply Stop].
      specialize (Go (cool_down e) eq_refl ltac:(discriminate)).
      unfold cool_down in Go.
      destruct (main_loop D fuel rest) as [t' s'].
      cbn [app] in Go |- *. exact Go.
  - cbn. split; [auto|]. exists []. rewrite app_nil_r.
    destruct Hc as [[_ ->]|[N _]]; [|now destruct N].
    cbn in Hy. rewrite app_nil_r in Hy. auto.
  - now destruct Ho.
Qed.

Lemma handled_preamble (t : list action) :
  handled
    (([LogInfo "Running RedditAutoCrosspostBot" None;
       ScheduleEvery 7 "minutes"
         "unwated_submission_remover.delete_unwanted_submissions";
       ScheduleEvery 20 "seconds" "inbox_responder.respond_to_inbox"]
        ++ (if negb LISTEN_ONLY
            then [ScheduleEvery 6 "minutes" "replier.respond_to_saved_comments"]
            else [])
        ++ (if DEBUG then [RunAll] else [])) ++ t)
  = handled t.
Proof. destruct LISTEN_ONLY, DEBUG; reflexivity. Qed.

(** X21: in either mode [main] never returns: against any script it is
    left waiting on the stream or it has raised. *)
Theorem main_never_returns (script : list stream_step) :
  snd (main DEBUG LISTEN_ONLY script) = Waiting \/
  exists e, snd (main DEBUG LISTEN_ONLY script) = Raised e.
Proof.
  unfold main.
  destruct (main_loop_progress DEBUG (S (length script)) script
              (Nat.lt_succ_diag_r _)) as (H & _).
  destruct (main_loop DEBUG (S (length script)) script) as [t s]. exact H.
Qed.

(** X22: in either mode the loop hands the comments of the stream to
    the handler one by one in the order they come, none twice and none
    skipped, as far as it gets; when it is left waiting it has handed
    over all of them. *)
Theorem events_handled_once_in_order (script : list stream_step) :
  exists later,
    yielded script = handled (fst (main DEBUG LISTEN_ONLY script)) ++ later /\
    (snd (main DEBUG LISTEN_ONLY script) = Waiting -> later = []).
Proof.
  unfold main.
  destruct (main_loop_progress DEBUG (S (length script)) script
              (Nat.lt_succ_diag_r _)) as (_ & later & Hl & Hw).
  destruct (main_loop DEBUG (S (length script)) script) as [t s].
  cbn [fst snd] in *. exists later. split; [|exact Hw].
  rewrite handled_preamble. exact Hl.
Qed.

End MainMore.

(** * Counting in production mode, and the debug mode *)

Section MainCounts.
Import Py Main Faults Counting.

Variable LISTEN_ONLY : bool.

Lemma filter_sleep_app (t1 t2 : list action) :
  List.filter is_sleep (t1 ++ t2)
  = List.filter is_sleep t1 ++ List.filter is_sleep t2.
Proof. apply List.filter_app. Qed.

Lemma count_app {A : Type} (p : A -> bool) (l1 l2 : list A) :
  count p (l1 ++ l2) = (count p l1 + count p l2)%nat.
Proof. unfold count. now rewrite List.filter_app, length_app. Qed.

(** One round in production over a survivable script: no sleep inside
    the round; a stream fault ends it; the scheduler runs once for each
    event handled without an exception. *)
Lemma for_comments_counts (script : list stream_step) :
  forallb survivable script = true ->
  forall t s rest,
    for_comments false script = (t, s, rest) ->
    List.filter is_sleep t = [] /\
    count is_stream_raise script
    = ((match s with Raised _ => 1 | _ => 0 end) + count is_stream_raise rest)%nat /\
    count is_handled_ok script
    = (count is_run_pending t + count is_handled_ok rest)%nat.
Proof.
  induction script as [|step script IH]; intros Hs t s rest.
  - cbn. intros [= <- <- <-]. auto.
  - cbn [forallb] in Hs. apply andb_true_iff in Hs. destruct Hs as [Hstep Hs].
    destruct step as [c handling pending|e|]; cbn [for_comments].
    + cbn [survivable] in Hstep. apply andb_true_iff in Hstep.
      destruct Hstep as [Hh Hp].
      destruct (for_comments false script) as [[t' s'] rest'] eqn:E.
      destruct (IH Hs t' s' rest' eq_refl) as (H1 & H2 & H3).
      destruct handling as [e|]; [|destruct pending as [e|]].
      * cbn in Hh. rewrite Hh. intros [= <- <- <-].
        cbn [app]. unfold count in *. cbn. auto.
      * cbn in Hp. rewrite Hp. intros [= <- <- <-].
        cbn [app]. unfold count in *. cbn. rewrite H3. auto.
      * intros [= <- <- <-].
        cbn [app]. unfold count in *. cbn. rewrite H3. auto.
    + intros [= <- <- <-]. unfold count. cbn. auto.
    + intros [= <- <- <-]. unfold count. cbn. auto.
Qed.

Lemma main_loop_counts (fuel : nat) :
  forall script,
    forallb survivable script = true -> (length script < fuel)%nat ->
    List.filter is_sleep (fst (main_loop false fuel script))
    = repeat (Sleep 30) (count is_stream_raise script) /\
    count is_run_pending (fst (main_loop false fuel script))
    = count is_handled_ok script.
Proof.
  induction fuel as [|fuel IH]; intros script Hs Hf; [inversion Hf|].
  destruct (for_comments_production script Hs)
    as (t & s & rest & E & Fr & Hcase).
  destruct (for_comments_counts script Hs t s rest E) as (H1 & H2 & H3).
  cbn [main_loop]. unfold listen_to_comment_stream. rewrite E.
  assert (Next : (length rest < length script)%nat ->
                 List.filter is_sleep (fst (main_loop false fuel rest))
                 = repeat (Sleep 30) (count is_stream_raise rest) /\
                 count is_run_pending (fst (main_loop false fuel rest))
                 = count is_handled_ok rest).
  { intros Hl. apply IH; [exact Fr | lia]. }
  destruct Hcase as [->|[[->|(e & -> & He)] Hl]].
  - destruct (for_comments_progress false script t Waiting rest E)
      as (_ & [[_ ->]|[N _]] & _); [|now destruct N].
    cbn [fst]. cbn [List.filter is_sleep count]. rewrite H1, H2, H3.
    unfold count at 4. cbn. rewrite Nat.add_0_r. split; reflexivity.
  - destruct (Next Hl) as (N1 & N2).
    destruct (main_loop false fuel rest) as [t' s']. cbn [fst] in *.
    cbn [app List.filter is_sleep]. rewrite filter_sleep_app, H1, N1, H2.
    split; [reflexivity|].
    unfold count in *. cbn [List.filter is_run_pending].
    rewrite List.filter_app, length_app. fold (count is_run_pending t).
    rewrite H3. unfold count. lia.
  - destruct (Next Hl) as (N1 & N2).
    assert (G : forall (t' : list action) (s' : status),
               List.filter is_sleep t'
               = repeat (Sleep 30) (count is_stream_raise rest) ->
               count is_run_pending t' = count is_handled_ok rest ->
               List.filter is_sleep
                 (fst ((OpenStream "all"
                          :: LogInfo "Listening to comment stream..." None :: t)
                         ++ LogInfo
                              "Ecnountered network error {e}. Waiting and retrying."
                              (Some e) :: Sleep 30 :: t', s'))
               = repeat (Sleep 30) (count is_stream_raise script) /\
               count is_run_pending
                 (fst ((OpenStream "all"
                          :: LogInfo "Listening to comment stream..." None :: t)
                         ++ LogInfo
                              "Ecnountered network error {e}. Waiting and retrying."
                              (Some e) :: Sleep 30 :: t', s'))
               = count is_handled_ok script).
    { intros t' s' M1 M2. cbn [fst app List.filter is_sleep].
      rewrite filter_sleep_app, H1. cbn [app List.filter is_sleep].
      rewrite M1, H2. split; [reflexivity|].
      unfold count in *. cbn [List.filter is_run_pending].
      rewrite List.filter_app, length_app. cbn [List.filter is_run_pending].
      rewrite H3. lia. }
    unfold recoverable in He.
    destruct (is_network_fault e).
    + destruct (main_loop false fuel rest) as [t' s']. now apply G.
    + cbn [orb] in He. apply andb_true_iff in He. destruct He as [-> ->].
      destruct (main_loop false fuel rest) as [t' s']. now apply G.
Qed.

(** X23: in production mode, over a script it lives through, the loop
    sleeps 30 seconds once for each fault of the stream and at no other
    time, and lets the scheduler run once after each event whose
    handling returned, and not after one whose handling raised. *)
Theorem one_sleep_per_stream_fault (script : list stream_step) :
  forallb survivable script = true ->
  List.filter is_sleep (fst (main false LISTEN_ONLY script))
  = repeat (Sleep 30) (count is_stream_raise script) /\
  count is_run_pending (fst (main false LISTEN_ONLY script))
  = count is_handled_ok script.
Proof.
  intros Hs. unfold main.
  destruct (main_loop_counts (S (length script)) script Hs
              (Nat.lt_succ_diag_r _)) as (H1 & H2).
  destruct (main_loop false (S (length script)) script) as [t s].
  cbn [fst] in *. destruct LISTEN_ONLY; cbn; unfold count in *; cbn; auto.
Qed.

(** X24: in debug mode a server error, a forbidden response or a
    connect timeout of the stream ends [main] at once, with no sleep;
    but a request failure that wraps a max-retries or read-timeout
    fault is slept over and the stream reopened, as in production. *)
Theorem debug_mode_stream_faults
        (fuel : nat) (e : exn) (rest : list stream_step) :
  recoverable e = true ->
  main_loop true (S fuel) (StreamRaise e :: rest)
  = if is_network_fault e
    then (fresh_stream, Raised e)
    else (fresh_stream ++ cool_down e ++ fst (main_loop true fuel rest),
          snd (main_loop true fuel rest)).
Proof.
  intros He. cbn [main_loop]. unfold listen_to_comment_stream.
  cbn [for_comments]. unfold recoverable in He.
  destruct (is_network_fault e); [reflexivity|].
  cbn [orb] in He. apply andb_true_iff in He. destruct He as [-> ->].
  destruct (main_loop true fuel rest) as [t' s']. reflexivity.
Qed.

(** X25: in debug mode an [Exception] of the handling of an event is
    logged and ends [main], the later events untouched, unless it is a
    request failure that wraps a max-retries or read-timeout fault. *)
Theorem debug_mode_event_exception_ends_main
        (fuel : nat) (c : Phase1.comment) (e : exn) (pending : option exn)
        (rest : list stream_step) :
  is_Exception e = true ->
  exc_class_eqb (cls e) RequestException
  && is_max_retry_or_read_timeout_error e = false ->
  main_loop true (S fuel) (Yield c (Some e) pending :: rest)
  = (fresh_stream ++ [HandleIncomingComment c; LogException e], Raised e).
Proof.
  intros Hx Hr. cbn [main_loop]. unfold listen_to_comment_stream.
  cbn [for_comments]. rewrite Hx.
  destruct (is_network_fault e); [reflexivity|].
  destruct (exc_class_eqb (cls e) RequestException); [|reflexivity].
  cbn [andb] in Hr. rewrite Hr. reflexivity.
Qed.

(** X26: an exit signal ([KeyboardInterrupt], [SystemExit]) raised
    while an event is handled is not logged and ends [main] in either
    mode. *)
Theorem exit_signal_ends_main
        (D : bool) (fuel : nat) (c : Phase1.comment) (e : exn)
        (pending : option exn) (rest : list stream_step) :
  is_Exception e = false ->
  main_loop D (S fuel) (Yield c (Some e) pending :: rest)
  = (fresh_stream ++ [HandleIncomingComment c], Raised e).
Proof.
  intros Hx. cbn [main_loop]. unfold listen_to_comment_stream.
  cbn [for_comments]. rewrite Hx.
  unfold is_Exception in Hx. unfold is_network_fault.
  destruct (cls e); try discriminate; reflexivity.
Qed.

End MainCounts.

(** * The further theorems at work on the sample platform *)

Section MoreWitnesses.
Import Py Phase1 Phase2 Pipeline Sample Main Faults Counting Batch Phrases.

Local Abbreviation sample_gpwsc :=
  (get_posts_with_same_content Sample.json_loads Sample.reddit_search).
Local Abbreviation sample_checks :=
  (run_filters_checks Sample.json_loads Sample.reddit_search no_reposts).

Lemma calls_only_after_every_filter_witness :
  exists target,
    check_pattern (says "r/cats" "t3_1") = Some target /\
    (String.length target <= SUBREDDIT_NAME_LENGTH_LIMIT)%nat /\
    is_mod_post (says "r/cats" "t3_1") = false /\
    title_contains_prohibited_phrases (says "r/cats" "t3_1") = false /\
    str_in (lower target) Sample.SUB_BLACKLIST = false /\
    str_in (lower (subreddit_display_name (says "r/cats" "t3_1")))
           Sample.SUB_BLACKLIST = false.
Proof.
  apply (calls_only_after_every_filter
           Sample.SUB_BLACKLIST "same_subreddit_bot" "sub_doesnt_exist_bot"
           Sample.get_translated_string Sample.format Sample.json_loads
           Sample.reddit_search no_reposts (says "r/cats" "t3_1")).
  vm_compute. discriminate.
Defined.

Lemma same_subreddit_reply_without_search_witness :
  Sample.handle (says "/r/Pics" "t1_9")
  = ([Reply (Some "same_subreddit_bot") "c1" "THATS_WHERE_WE_ARE"], inr tt).
Proof.
  apply (same_subreddit_reply_without_search
           Sample.SUB_BLACKLIST "same_subreddit_bot" "sub_doesnt_exist_bot"
           Sample.get_translated_string Sample.format Sample.json_loads
           Sample.reddit_search no_reposts (says "/r/Pics" "t1_9") "Pics");
    try reflexivity.
  vm_compute. lia.
Defined.

Lemma found_reply_cites_first_post_witness :
  exists p ps,
    posts (Phase1.MkResult true [cat_post] false None) = p :: ps /\
    Sample.handle (says "r/cats" "t3_1")
    = ([Search "cats" (query_of (says "r/cats" "t3_1"))]
         ++ [Reply None "c1"
               (Sample.format
                  (Sample.get_translated_string "FOUND_POST_WITH_SAME_CONTENT" "cats")
                  [("same_content_post_url", post_permalink p);
                   ("target_subreddit", "cats")])], inr tt).
Proof.
  apply (found_reply_cites_first_post
           Sample.SUB_BLACKLIST "same_subreddit_bot" "sub_doesnt_exist_bot"
           Sample.get_translated_string Sample.format Sample.json_loads
           Sample.reddit_search no_reposts (says "r/cats" "t3_1") "cats"
           [Search "cats" (query_of (says "r/cats" "t3_1"))]
           (Phase1.MkResult true [cat_post] false None));
    [vm_compute; repeat split | reflexivity | reflexivity].
Defined.

Lemma search_failure_leaves_no_side_effect_witness :
  Sample.handle (says "r/elsewhere" "t3_1")
  = ([Search "elsewhere" (query_of (says "r/elsewhere" "t3_1"))],
     inl (Exn ServerError [AStr "received 503 HTTP response"] (Some "") None)).
Proof.
  apply (search_failure_leaves_no_side_effect
           Sample.SUB_BLACKLIST "same_subreddit_bot" "sub_doesnt_exist_bot"
           Sample.get_translated_string Sample.format Sample.json_loads
           Sample.reddit_search no_reposts (says "r/elsewhere" "t3_1")
           "elsewhere"
           [Search "elsewhere" (query_of (says "r/elsewhere" "t3_1"))]
           (Exn ServerError [AStr "received 503 HTTP response"] (Some "") None));
    [vm_compute; repeat split | reflexivity].
Defined.

Lemma private_target_staged_if_top_level_witness :
  Sample.handle (says "r/secret" "t3_1")
  = ([Search "secret" (query_of (says "r/secret" "t3_1"))]
       ++ [AddComment (says "r/secret" "t3_1")], inr tt).
Proof.
  apply (private_target_staged_if_top_level
           Sample.SUB_BLACKLIST "same_subreddit_bot" "sub_doesnt_exist_bot"
           Sample.get_translated_string Sample.format Sample.json_loads
           Sample.reddit_search no_reposts (says "r/secret" "t3_1") "secret"
           [Search "secret" (query_of (says "r/secret" "t3_1"))]
           (Phase1.MkResult false [] true (Some "SUBREDDIT_IS_PRIVATE")));
    [vm_compute; repeat split | reflexivity | reflexivity].
Defined.

Lemma search_result_well_formed_witness :
  posts_found (Phase1.MkResult true [old_post] false None)
  && unable_to_search (Phase1.MkResult true [old_post] false None) = false.
Proof.
  apply (search_result_well_formed
           Sample.json_loads Sample.reddit_search seen_before
           (says "r/quiet" "t3_1") "quiet"
           (Phase1.MkResult true [old_post] false None)).
  reflexivity.
Defined.

Lemma nonempty_results_found_in_order_witness :
  sample_gpwsc no_reposts (says "r/cats" "t3_1") "cats"
  = ([Search "cats" (query_of (says "r/cats" "t3_1"))],
     inr (Phase1.MkResult true [cat_post] false None)).
Proof.
  apply (nonempty_results_found_in_order
           Sample.json_loads Sample.reddit_search no_reposts
           (says "r/cats" "t3_1") "cats" cat_post []).
  reflexivity.
Defined.

Lemma repost_detector_asked_iff_empty_results_witness :
  trace (sample_gpwsc seen_before (says "r/quiet" "t3_1") "quiet")
  = [Search "quiet" (query_of (says "r/quiet" "t3_1"));
     GetRepostsInSub (says "r/quiet" "t3_1") "quiet"].
Proof.
  apply (repost_detector_asked_iff_empty_results
           Sample.json_loads Sample.reddit_search seen_before
           (says "r/quiet" "t3_1") "quiet").
  reflexivity.
Defined.

Lemma forbidden_is_private_witness :
  sample_gpwsc no_reposts (says "r/secret" "t3_1") "secret"
  = ([Search "secret" (query_of (says "r/secret" "t3_1"))],
     inr (Phase1.MkResult false [] true (Some "SUBREDDIT_IS_PRIVATE"))).
Proof.
  apply (forbidden_is_private
           Sample.json_loads Sample.reddit_search no_reposts
           (says "r/secret" "t3_1") "secret"
           (Exn Forbidden [AStr "received 403 HTTP response"] (Some "") None) []);
    reflexivity.
Defined.

Lemma absent_target_outcomes_witness :
  sample_gpwsc no_reposts (says "r/bannedsub" "t3_1") "bannedsub"
  = ([Search "bannedsub" (query_of (says "r/bannedsub" "t3_1"))],
     inr (Phase1.MkResult false [] true (Some "SUBREDDIT_IS_BANNED"))).
Proof.
  apply (proj2 (absent_target_outcomes
           Sample.json_loads Sample.reddit_search no_reposts
           (says "r/bannedsub" "t3_1") "bannedsub"
           (Exn NotFound [AStr "received 404 HTTP response"]
                (Some banned_text) None)
           "received 404 HTTP response" banned_text []
           eq_refl eq_refl eq_refl (or_intror eq_refl) eq_refl)
           [("reason", JStr "banned"); ("message", JStr "Not Found");
            ("error", JNum 404)]
           (JStr "banned"));
    try reflexivity.
  vm_compute. discriminate.
Defined.

Lemma unlisted_failure_propagates_witness :
  sample_gpwsc no_reposts (says "r/elsewhere" "t3_1") "elsewhere"
  = ([Search "elsewhere" (query_of (says "r/elsewhere" "t3_1"))],
     inl (Exn ServerError [AStr "received 503 HTTP response"] (Some "") None)).
Proof.
  apply (unlisted_failure_propagates
           Sample.json_loads Sample.reddit_search no_reposts
           (says "r/elsewhere" "t3_1") "elsewhere"
           (Exn ServerError [AStr "received 503 HTTP response"] (Some "") None)
           "received 503 HTTP response" []);
    try reflexivity.
  cbn. intros [E|[E|[E|[E|[]]]]]; discriminate E.
Defined.

Lemma failure_without_args_raises_IndexError_witness :
  get_posts_with_same_content Sample.json_loads
    (fun _ _ => inl (Exn (OtherException "Exception") [] None None))
    no_reposts (says "r/cats" "t3_1") "cats"
  = ([Search "cats" (query_of (says "r/cats" "t3_1"))],
     inl (simple_exn IndexError "tuple index out of range")).
Proof.
  apply (failure_without_args_raises_IndexError
           Sample.json_loads
           (fun _ _ => inl (Exn (OtherException "Exception") [] None None))
           no_reposts (says "r/cats" "t3_1") "cats"
           (Exn (OtherException "Exception") [] None None));
    reflexivity.
Defined.

Lemma prohibited_title_whole_word_witness :
  title_contains_prohibited_phrases
    (Comment "c1" "/r/pics/comments/1/best_subs/c1/" "r/cats" "t3_1" "t3_1" None
             "pics" "Best SUBS, ranked" "http://i.example/cat.png" 5)
  = true.
Proof.
  apply (proj2 (prohibited_title_whole_word
                  (Comment "c1" "/r/pics/comments/1/best_subs/c1/" "r/cats"
                           "t3_1" "t3_1" None "pics" "Best SUBS, ranked"
                           "http://i.example/cat.png" 5) eq_refl)).
  exists "Best ", "SUBS", ", ranked". repeat split; try reflexivity.
  vm_compute. auto.
Defined.

Lemma availability_by_fetch_witness :
  trace (check_comment_availability Sample.reddit_comment
           "https://www.reddit.com/r/pics/comments/1/a_cat/c2/")
  = [FetchComment "https://www.reddit.com/r/pics/comments/1/a_cat/c2/"].
Proof.
  apply (availability_by_fetch Sample.reddit_comment
           "https://www.reddit.com/r/pics/comments/1/a_cat/c2/").
Defined.

Lemma checks_need_permalink_witness :
  sample_checks Sample.environ Sample.int Sample.reddit_comment ∅ ∅
  = ([], inl (simple_exn KeyError "permalink")).
Proof.
  apply (checks_need_permalink
           Sample.json_loads Sample.reddit_search no_reposts
           Sample.environ Sample.int Sample.reddit_comment ∅ ∅).
  reflexivity.
Defined.

Lemma checks_pass_iff_no_reason_witness :
  exists permalink,
    kept_entry !! "permalink" = Some permalink /\
    Phase2.comment
      (Phase2.MkResult true None
         (Some "https://www.reddit.com/r/pics/comments/1/a_cat/c1/")
         (Some "newsub") None)
    = Some (get_full_comment_from_reddit permalink).
Proof.
  apply (checks_pass_iff_no_reason
           Sample.json_loads Sample.reddit_search no_reposts
           Sample.environ Sample.int Sample.reddit_comment ∅ kept_entry
           (Phase2.MkResult true None
              (Some "https://www.reddit.com/r/pics/comments/1/a_cat/c1/")
              (Some "newsub") None)).
  reflexivity.
Defined.

Lemma checks_threshold_error_witness :
  sample_checks ∅ Sample.int Sample.reddit_comment ∅ kept_entry
  = ([FetchComment "https://www.reddit.com/r/pics/comments/1/a_cat/c1/"],
     inl (simple_exn TypeError
            "int() argument must be a string, a bytes-like object or a real number, not 'NoneType'")).
Proof.
  apply (checks_threshold_error
           Sample.json_loads Sample.reddit_search no_reposts
           ∅ Sample.int Sample.reddit_comment ∅ kept_entry
           "/r/pics/comments/1/a_cat/c1/" (says "r/newsub" "t3_1"));
    reflexivity.
Defined.

Lemma filter_checks_in_order_witness :
  exists r,
    sample_checks Sample.environ Sample.int Sample.reddit_comment ∅ deleted_entry
    = ([FetchComment "https://www.reddit.com/r/pics/comments/1/a_cat/c2/"], inr r) /\
    passes_filter r = false /\ reason r = Some "COMMENT_UNAVAILABLE".
Proof.
  apply (proj1 (filter_checks_in_order
           Sample.json_loads Sample.reddit_search no_reposts
           Sample.environ Sample.int Sample.reddit_comment ∅ deleted_entry
           "/r/pics/comments/1/a_cat/c2/" eq_refl)
           (simple_exn ClientException "comment unavailable"));
    reflexivity.
Defined.

Lemma batch_changes_nothing_witness :
  length
    (workers
       (filter_comments_from_db Sample.json_loads Sample.reddit_search
          no_reposts Sample.builtins Sample.environ Sample.int
          Sample.reddit_comment (fun _ => inr (Some 7200%Z))
          (fun _ => inr [kept_entry; deleted_entry])))
  = 2%nat /\
  Phase2.process_comment_entry Sample.json_loads Sample.reddit_search
    no_reposts Sample.builtins Sample.environ Sample.int
    Sample.reddit_comment deleted_entry
  = ([], inl unbound_target_subreddit).
Proof.
  destruct (batch_changes_nothing Sample.json_loads Sample.reddit_search
              no_reposts Sample.builtins Sample.environ Sample.int
              Sample.reddit_comment (fun _ => inr (Some 7200%Z))
              (fun _ => inr [kept_entry; deleted_entry])
              (Some 7200%Z) [kept_entry; deleted_entry]
              eq_refl eq_refl eq_refl) as (_ & H2 & H3).
  split; [exact H2|]. apply H3. right. left. reflexivity.
Defined.

Lemma batch_setup_errors_witness :
  filter_comments_from_db Sample.json_loads Sample.reddit_search
    no_reposts Sample.builtins ∅ Sample.int Sample.reddit_comment
    (fun o => match o with
              | Some _ => inr None
              | None => inl (simple_exn TypeError "expected string or bytes-like object")
              end)
    (fun _ => inr [kept_entry])
  = Run (inl (simple_exn TypeError "expected string or bytes-like object")) [].
Proof.
  apply (batch_setup_errors Sample.json_loads Sample.reddit_search
           no_reposts Sample.builtins ∅ Sample.int Sample.reddit_comment
           (fun o => match o with
                     | Some _ => inr None
                     | None => inl (simple_exn TypeError "expected string or bytes-like object")
                     end)
           (fun _ => inr [kept_entry])).
  left. reflexivity.
Defined.

Lemma one_sleep_per_stream_fault_witness :
  List.filter is_sleep
    (fst (Main.main false false
            [Yield (says "r/cats" "t3_1") None None;
             StreamRaise (simple_exn Forbidden "received 403 HTTP response");
             StreamEnd;
             StreamRaise (simple_exn ConnectTimeout "timed out")]))
  = [Sleep 30; Sleep 30].
Proof.
  apply (one_sleep_per_stream_fault false
           [Yield (says "r/cats" "t3_1") None None;
            StreamRaise (simple_exn Forbidden "received 403 HTTP response");
            StreamEnd;
            StreamRaise (simple_exn ConnectTimeout "timed out")]).
  reflexivity.
Defined.

Lemma debug_mode_stream_faults_witness :
  main_loop true 2
    [StreamRaise (simple_exn ServerError "received 503 HTTP response")]
  = (fresh_stream,
     Raised (simple_exn ServerError "received 503 HTTP response")).
Proof.
  apply (debug_mode_stream_faults 1
           (simple_exn ServerError "received 503 HTTP response") []).
  reflexivity.
Defined.

Lemma debug_mode_event_exception_ends_main_witness :
  main_loop true 3
    [Yield (says "r/gone" "t3_1") (Some (simple_exn KeyError "reason")) None;
     Yield (says "r/cats" "t3_1") None None]
  = (fresh_stream ++ [HandleIncomingComment (says "r/gone" "t3_1");
                      LogException (simple_exn KeyError "reason")],
     Raised (simple_exn KeyError "reason")).
Proof.
  apply (debug_mode_event_exception_ends_main 2 (says "r/gone" "t3_1")
           (simple_exn KeyError "reason") None
           [Yield (says "r/cats" "t3_1") None None]);
    reflexivity.
Defined.

Lemma exit_signal_ends_main_witness :
  main_loop false 2
    [Yield (says "r/cats" "t3_1") (Some (Exn KeyboardInterrupt [] None None)) None]
  = (fresh_stream ++ [HandleIncomingComment (says "r/cats" "t3_1")],
     Raised (Exn KeyboardInterrupt [] None None)).
Proof.
  apply (exit_signal_ends_main false 1 (says "r/cats" "t3_1")
           (Exn KeyboardInterrupt [] None None) None []).
  reflexivity.
Defined.

End MoreWitnesses.
